(** * The IRIS slit-jaw-imager level-2 loader ([irispy/new_sji.py])

    A shallow embedding of [read_iris_sji_level2_fits], of
    [SJICube.__repr__] and of the parts of numpy, astropy and the Python run
    time they touch, followed by their properties.

    - integers stored in the FITS image are [Z];
    - numpy [float64] values are Rocq's primitive binary64 floats, so [nan]
      and rounding are the ones numpy sees;
    - a Python exception is a [Raise] outcome; the interpreter state that the
      loader can change (numpy buffers, the file handle, calls into sunpy's
      time parser) is threaded through the [py] monad. *)

From Stdlib Require Import ZArith Floats Uint63 Lia Bool Sorted.
From stdpp Require Import gmap strings list pretty.

Open Scope Z_scope.

(* ================================================================== *)
(** ** Python: exceptions and the interpreter state *)
(* ================================================================== *)

Inductive exn :=
| KeyError (key : string)
| IndexError
| ValueError
| OverflowError
| UnitConversionError.

Inductive outcome (A : Type) :=
| Ok (a : A)
| Raise (e : exn).
Arguments Ok {A} a.
Arguments Raise {A} e.

(** [LookupError] is the base class of [KeyError] and [IndexError]. *)
Definition is_lookup_error (e : exn) : bool :=
  match e with
  | KeyError _ | IndexError => true
  | _ => false
  end.

Definition succeeded {A} (r : outcome A) : bool :=
  match r with Ok _ => true | Raise _ => false end.

(* ================================================================== *)
(** ** numpy: arrays as a shape and a row-major buffer *)
(* ================================================================== *)

Record ndarray (A : Type) := NDArray { shape : list nat; buf : list A }.
Arguments NDArray {A} shape buf.
Arguments shape {A} _.
Arguments buf {A} _.

(** Element-wise application ([np.sqrt(a)], [a + x], [a == x], ...). *)
Definition amap {A B} (f : A → B) (a : ndarray A) : ndarray B :=
  NDArray (shape a) (map f (buf a)).

(** [a == v] *)
Definition eq_scalar (a : ndarray Z) (v : Z) : ndarray bool :=
  amap (λ x, x =? v) a.

(** The buffer of [a] after [a[sel] = v]. *)
Fixpoint put_where (sel : list bool) (v : Z) (xs : list Z) : list Z :=
  match sel, xs with
  | b :: sel', x :: xs' => (if b then v else x) :: put_where sel' v xs'
  | _, _ => xs
  end.

(** [a[sel] = v] with a boolean index array: numpy refuses an index whose
    shape differs from the array's. *)
Definition setitem_where (a : ndarray Z) (sel : ndarray bool) (v : Z)
  : outcome (ndarray Z) :=
  if decide (shape sel = shape a)
  then Ok (NDArray (shape a) (put_where (buf sel) v (buf a)))
  else Raise IndexError.

(** [a.shape[0]] *)
Definition shape0 {A} (a : ndarray A) : outcome nat :=
  match shape a with
  | n :: _ => Ok n
  | [] => Raise IndexError
  end.

(** An integer index [c] on an axis of length [n]; negative indices count
    from the end. *)
Definition norm_index (n : nat) (c : Z) : option nat :=
  if (0 <=? c) && (c <? Z.of_nat n) then Some (Z.to_nat c)
  else if (- Z.of_nat n <=? c) && (c <? 0) then Some (Z.to_nat (c + Z.of_nat n))
  else None.

(** [a[:, c]] on a two-dimensional array (the auxiliary extension is a
    rows-by-columns table); any other rank is answered with [IndexError],
    as numpy does below rank two. *)
Definition column {A} (a : ndarray A) (c : Z) : outcome (list A) :=
  match shape a with
  | [nr; nc] =>
      match norm_index nc c with
      | Some j =>
          match mapM (λ r, buf a !! (r * nc + j)%nat) (seq 0 nr) with
          | Some xs => Ok xs
          | None => Raise IndexError
          end
      | None => Raise IndexError
      end
  | _ => Raise IndexError
  end.

(** Row-major offset of a full index tuple, and [a[i, j, ...]]. *)
Fixpoint offset (sh idx : list nat) : option nat :=
  match sh, idx with
  | [], [] => Some 0%nat
  | n :: sh', i :: idx' =>
      if (i <? n)%nat
      then o ← offset sh' idx'; Some (i * foldr Nat.mul 1%nat sh' + o)%nat
      else None
  | _, _ => None
  end.

Definition item {A} (a : ndarray A) (idx : list nat) : option A :=
  o ← offset (shape a) idx; buf a !! o.

(** int16 / int32 image values turned into float64 (exact below 2^53). *)
Definition float_of_int (z : Z) : float :=
  if z <? 0 then PrimFloat.opp (PrimFloat.of_uint63 (Uint63.of_Z (- z)))
  else PrimFloat.of_uint63 (Uint63.of_Z z).


(* ================================================================== *)
(** ** astropy.units, as far as the loader uses it *)
(* ================================================================== *)

Module u.

Inductive Unit :=
| arcsec
| m
| s
| photon
| def_unit (name : string) (factor : float) (base : Unit)
    (** [u.def_unit(name, factor * base)] *)
| div (num den : Unit).
    (** [num / den] *)

Inductive PhysicalType := angle | length | time | velocity | unknown.

Definition physical_type (x : Unit) : PhysicalType :=
  match x with
  | arcsec => angle
  | m => length
  | s => time
  | div m s => velocity
  | _ => unknown
  end.

(** Scale of a unit decomposed onto the photon, for the units that are
    multiples of it. *)
Fixpoint photons (x : Unit) : option float :=
  match x with
  | photon => Some 1%float
  | def_unit _ k b => PrimFloat.mul k <$> photons b
  | _ => None
  end.

(** [Unit.to]: the value is multiplied by the quotient of the two
    decomposed scales; units that are not commensurable raise. *)
Definition to (src dst : Unit) (v : float) : outcome float :=
  match photons src, photons dst with
  | Some a, Some b => Ok (PrimFloat.mul v (PrimFloat.div a b))
  | _, _ => Raise UnitConversionError
  end.

(** The same on an array. *)
Definition to_array (src dst : Unit) (a : ndarray float)
  : outcome (ndarray float) :=
  match photons src, photons dst with
  | Some x, Some y => Ok (amap (λ v, PrimFloat.mul v (PrimFloat.div x y)) a)
  | _, _ => Raise UnitConversionError
  end.

End u.

(** A scalar [Quantity]. *)
Record Quantity := { q_value : float; q_unit : u.Unit }.

(** [irispy.iris_tools] is not among the sources read here: the two table
    entries the loader looks up, [DN_UNIT["SJI"]] and [READOUT_NOISE["SJI"]],
    are a parameter of the embedding. *)
Record IrisTools := {
  DN_UNIT_SJI : u.Unit;
  READOUT_NOISE_SJI : Quantity;
}.

(** The constants irispy publishes for the slit-jaw imager: one DN is 18
    photons (detector gain 18, yield 1) and the readout noise is 1.2 DN,
    the float64 nearest to 1.2. *)
Definition DN_IRIS_SJI : u.Unit := u.def_unit "DN_IRIS_SJI" 18%float u.photon.

Definition SJI_constants : IrisTools :=
  {| DN_UNIT_SJI := DN_IRIS_SJI;
     READOUT_NOISE_SJI :=
       {| q_value := 0x1.3333333333333p+0%float; q_unit := DN_IRIS_SJI |} |}.

(* ================================================================== *)
(** ** astropy.io.fits: header cards, and what the loader can change *)
(* ================================================================== *)

(** The value of a header card. *)
Inductive card :=
| CStr (s : string)
| CInt (z : Z)
| CBool (b : bool)
| CFloat (x : float).

(** Python truth value of a card value ([if date_obs ...]). *)
Definition truthy (c : card) : bool :=
  match c with
  | CStr s => negb (String.eqb s EmptyString)
  | CInt z => negb (z =? 0)
  | CBool b => b
  | CFloat x => negb (PrimFloat.eqb x 0%float)
  end.

(** State reachable from the loader:
    - [heap]: the numpy buffers alive in the process; an array object is the
      index of its buffer, so two names bound to one object share it;
    - [hdu0_cache]: [my_file[0].data] is a lazy property, the array is
      created on first access and the same object is handed out afterwards;
    - [handle_open]: the file handle behind the [HDUList];
    - [parse_calls]: the arguments passed to [sunpy.time.parse_time], oldest
      first. *)
Record World := {
  heap : list (ndarray Z);
  hdu0_cache : option nat;
  handle_open : bool;
  parse_calls : list card;
}.

Definition init_world : World :=
  {| heap := []; hdu0_cache := None; handle_open := false; parse_calls := [] |}.

Definition py (A : Type) : Type := World → World * outcome A.

Definition ret {A} (a : A) : py A := λ w, (w, Ok a).
Definition lift {A} (r : outcome A) : py A := λ w, (w, r).
Definition bind {A B} (c : py A) (k : A → py B) : py B := λ w,
  match c w with
  | (w', Ok a) => k a w'
  | (w', Raise e) => (w', Raise e)
  end.

Declare Scope py_scope.
Delimit Scope py_scope with py.
Notation "x <- c ;; k" := (bind c (λ x, k))
  (at level 100, c at next level, right associativity) : py_scope.
Notation "c ;; k" := (bind c (λ _, k))
  (at level 100, right associativity) : py_scope.

(** A list comprehension whose body has effects. *)
Fixpoint comprehension {A B} (body : A → py B) (xs : list A) : py (list B) :=
  match xs with
  | [] => ret []
  | x :: xs' =>
      (y <- body x ;; ys <- comprehension body xs' ;; ret (y :: ys))%py
  end.

(** The world after further calls [cs] into the time parser. *)
Definition logged (cs : list card) (w : World) : World :=
  {| heap := heap w; hdu0_cache := hdu0_cache w; handle_open := handle_open w;
     parse_calls := parse_calls w ++ cs |}.

(** [fits.open(filename, memmap=True, do_not_scale_image_data=True)] *)
Definition fits_open : py unit := λ w,
  ({| heap := heap w; hdu0_cache := None; handle_open := true;
      parse_calls := parse_calls w |}, Ok tt).

(** [my_file.close()] *)
Definition fits_close : py unit := λ w,
  ({| heap := heap w; hdu0_cache := hdu0_cache w; handle_open := false;
      parse_calls := parse_calls w |}, Ok tt).

(** [my_file[0].data] for a file whose stored image is [img]. *)
Definition hdu0_data (img : ndarray Z) : py nat := λ w,
  match hdu0_cache w with
  | Some r => (w, Ok r)
  | None =>
      let r := length (heap w) in
      ({| heap := heap w ++ [img]; hdu0_cache := Some r;
          handle_open := handle_open w; parse_calls := parse_calls w |}, Ok r)
  end.

(** Reading and replacing the buffer behind an array object. *)
Definition deref (r : nat) : py (ndarray Z) := λ w,
  (w, Ok (default (NDArray [] []) (heap w !! r))).

Definition assign (r : nat) (a : ndarray Z) : py unit := λ w,
  ({| heap := <[r := a]> (heap w); hdu0_cache := hdu0_cache w;
      handle_open := handle_open w; parse_calls := parse_calls w |}, Ok tt).

(** [r == v] and [r[sel] = v] on array objects. *)
Definition np_eq (r : nat) (v : Z) : py (ndarray bool) :=
  (a <- deref r ;; ret (eq_scalar a v))%py.

Definition np_setitem (r : nat) (sel : ndarray bool) (v : Z) : py unit :=
  (a <- deref r ;; a' <- lift (setitem_where a sel v) ;; assign r a')%py.

(** [header[key]] and [header.get(key, default)] *)
Definition getitem (h : gmap string card) (key : string) : outcome card :=
  match h !! key with
  | Some c => Ok c
  | None => Raise (KeyError key)
  end.

Definition hdr_getitem (h : gmap string card) (key : string) : py card :=
  lift (getitem h key).

Definition hdr_get (h : gmap string card) (key : string) (dflt : card) : card :=
  default dflt (h !! key).

(* ================================================================== *)
(** ** The libraries behind the loader *)
(* ================================================================== *)

(** What the loader asks of astropy.wcs, sunpy.time and datetime:
    - [WCS header]: the world-coordinate object built from a header;
    - [cell]: the element type of the auxiliary table, ordered by [cell_le];
      the loader only moves these values around and hands them to
      [timedelta];
    - [parse_time c]: [None] when sunpy raises [ValueError];
    - [add_seconds t x]: [t + timedelta(seconds=x)], [None] when the
      result cannot be represented. *)
Class External := {
  wcs : Type;
  WCS : gmap string card → wcs;
  cell : Type;
  cell_le : cell → cell → Prop;
  datetime : Type;
  datetime_le : datetime → datetime → Prop;
  parse_time : card → option datetime;
  add_seconds : datetime → cell → option datetime;
}.

(** [timedelta] rounds to microseconds but never reverses an order. *)
Class MonotoneClock (E : External) : Prop :=
  add_seconds_mono :
    ∀ t x y tx ty,
      cell_le x y → add_seconds t x = Some tx → add_seconds t y = Some ty →
      datetime_le tx ty.

(* ================================================================== *)
(** ** [irispy/new_sji.py] *)
(* ================================================================== *)

Definition BAD_PIXEL_VALUE : Z := -200.
Definition BAD_PIXEL_VALUE_UNSCALED : Z := -32768.

Section Loader.
Context {E : External}.

(** What [fits.open] hands over: the primary header and its unscaled
    image, the header of the first extension and its table. *)
Record FitsFile := {
  hdr0 : gmap string card;
  img0 : ndarray Z;
  hdr1 : gmap string card;
  tab1 : ndarray cell;
}.

(** The value part of an extra coordinate: an array of datetimes, a bare
    array, or an array [Quantity]. *)
Inductive series :=
| Datetimes (ts : list datetime)
| Bare (xs : list cell)
| Quantities (xs : list cell) (un : u.Unit).

Definition series_length (v : series) : nat :=
  match v with
  | Datetimes ts => length ts
  | Bare xs | Quantities xs _ => length xs
  end.

Definition series_unit (v : series) : option u.Unit :=
  match v with
  | Quantities _ un => Some un
  | _ => None
  end.

(** [xs * unit] and [q / unit] *)
Definition times_unit (xs : list cell) (un : u.Unit) : series :=
  Quantities xs un.

Definition per_unit (q : series) (den : u.Unit) : series :=
  match q with
  | Quantities xs un => Quantities xs (u.div un den)
  | _ => q
  end.

(** Values of the [meta] dictionary. *)
Inductive mval :=
| MCard (c : card)
| MTime (t : datetime)
| MNone
| MInt (n : nat).

Definition of_optional_time (o : option datetime) : mval :=
  match o with Some t => MTime t | None => MNone end.

(** The arguments [SJICube] is built from; [cube_data] is the array
    object, not a copy of it. *)
Record SJICube := {
  cube_data : nat;
  cube_wcs : wcs;
  cube_uncertainty : ndarray float;
  cube_unit : u.Unit;
  cube_meta : gmap string mval;
  cube_mask : ndarray bool;
  cube_extra_coords : list (string * Z * series);
}.

(** [parse_time(c)] as called from the loader. *)
Definition parse_outcome (c : card) : outcome datetime :=
  match parse_time c with Some t => Ok t | None => Raise ValueError end.

Definition call_parse_time (c : card) : py datetime := λ w,
  (logged [c] w, parse_outcome c).

(** [t + timedelta(seconds=x)] *)
Definition plus_seconds (t : datetime) (x : cell) : py datetime :=
  lift (match add_seconds t x with
        | Some t' => Ok t'
        | None => Raise OverflowError
        end).

(** [table[:, header[key]]]: the header lookup comes first; a card that
    is not an integer is no valid index. *)
Definition column_of (f : FitsFile) (key : string) : outcome (list cell) :=
  match getitem (hdr1 f) key with
  | Ok (CInt z) => column (tab1 f) z
  | Ok _ => Raise IndexError
  | Raise e => Raise e
  end.

Definition table_column (f : FitsFile) (key : string) : py (list cell) :=
  lift (column_of f key).

(** The element expression of the [times] comprehension:
    [parse_time(header["STARTOBS"]) + timedelta(seconds=s)]. *)
Definition frame_time (f : FitsFile) (s : cell) : py datetime :=
  (startobs <- hdr_getitem (hdr0 f) "STARTOBS" ;;
   t0 <- call_parse_time startobs ;;
   plus_seconds t0 s)%py.

(** [x = header.get(key, None); x = parse_time(x) if x else None] *)
Definition optional_time (h : gmap string card) (key : string)
  : py (option datetime) :=
  match h !! key with
  | Some c =>
      if truthy c then (t <- call_parse_time c ;; ret (Some t))%py
      else ret None
  | None => ret None
  end.

Definition Unknown : card := CStr "Unknown".

Variable iris_tools : IrisTools.

Definition read_iris_sji_level2_fits (f : FitsFile) : py SJICube :=
  (fits_open ;;                                             (* l.127 *)
   let wcs := WCS (hdr0 f) in                               (* l.129 *)
   data <- hdu0_data (img0 f) ;;
   data_nan_masked <- hdu0_data (img0 f) ;;
   bad <- np_eq data BAD_PIXEL_VALUE_UNSCALED ;;            (* l.132 *)
   np_setitem data_nan_masked bad BAD_PIXEL_VALUE ;;
   mask <- np_eq data_nan_masked BAD_PIXEL_VALUE_UNSCALED ;; (* l.133 *)
   exposure_times <- table_column f "EXPTIMES" ;;           (* l.135 *)
   let unit := DN_UNIT_SJI iris_tools in
   let readout_noise := READOUT_NOISE_SJI iris_tools in
   counts <- deref data_nan_masked ;;                       (* l.139-141 *)
   in_photons <- lift (u.to_array unit u.photon (amap float_of_int counts)) ;;
   noise <- lift (u.to (q_unit readout_noise) u.photon (q_value readout_noise)) ;;
   uncertainty <-
     lift (u.to_array u.photon unit
             (amap (λ x, PrimFloat.sqrt (PrimFloat.add x (PrimFloat.mul noise noise)))
                   in_photons)) ;;
   elapsed <- table_column f "TIME" ;;                      (* l.143-145 *)
   times <- comprehension (frame_time f) elapsed ;;
   pztx <- table_column f "PZTX" ;;
   let pztx := times_unit pztx u.arcsec in
   pzty <- table_column f "PZTY" ;;
   let pzty := times_unit pzty u.arcsec in
   xcenix <- table_column f "XCENIX" ;;
   let xcenix := times_unit xcenix u.arcsec in
   ycenix <- table_column f "YCENIX" ;;
   let ycenix := times_unit ycenix u.arcsec in
   obs_vrix <- table_column f "OBS_VRIX" ;;
   let obs_vrix := per_unit (times_unit obs_vrix u.m) u.s in
   ophaseix <- table_column f "OPHASEIX" ;;
   let extra_coords :=
     [("TIME", 0, Datetimes times); ("PZTX", 0, pztx); ("PZTY", 0, pzty);
      ("XCENIX", 0, xcenix); ("YCENIX", 0, ycenix);
      ("OBS_VRIX", 0, obs_vrix); ("OPHASEIX", 0, Bare ophaseix);
      ("EXPOSURE TIME", 0, Bare exposure_times)] in
   date_obs <- optional_time (hdr0 f) "DATE_OBS" ;;         (* l.157-164 *)
   date_end <- optional_time (hdr0 f) "DATE_END" ;;
   startobs <- optional_time (hdr0 f) "STARTOBS" ;;
   endobs <- optional_time (hdr0 f) "ENDOBS" ;;
   frames <- hdu0_data (img0 f) ;;                          (* l.172 *)
   frames <- deref frames ;;
   nbframes <- lift (shape0 frames) ;;
   let meta : gmap string mval :=
     <["TELESCOP" := MCard (hdr_get (hdr0 f) "TELESCOP" Unknown)]> (
     <["INSTRUME" := MCard (hdr_get (hdr0 f) "INSTRUME" Unknown)]> (
     <["TWAVE1" := MCard (hdr_get (hdr0 f) "TWAVE1" Unknown)]> (
     <["DATE_OBS" := of_optional_time date_obs]> (
     <["DATE_END" := of_optional_time date_end]> (
     <["STARTOBS" := of_optional_time startobs]> (
     <["ENDOBS" := of_optional_time endobs]> (
     <["NBFRAMES" := MInt nbframes]> (
     <["OBSID" := MCard (hdr_get (hdr0 f) "OBSID" Unknown)]> (
     <["OBS_DESC" := MCard (hdr_get (hdr0 f) "OBS_DESC" Unknown)]> ∅)))))))))
   in
   fits_close ;;                                            (* l.176 *)
   ret {| cube_data := data_nan_masked; cube_wcs := wcs;
          cube_uncertainty := uncertainty; cube_unit := unit;
          cube_meta := meta; cube_mask := mask;
          cube_extra_coords := extra_coords |})%py.

(** One call of the loader in a fresh interpreter. *)
Definition load (f : FitsFile) : World * outcome SJICube :=
  read_iris_sji_level2_fits f init_world.

End Loader.

(** Editing the headers of a file: used to compare a file with the same
    file lacking, or holding an empty, card. *)
Definition drop_card `{E : External} (key : string) (f : FitsFile) : FitsFile :=
  {| hdr0 := delete key (hdr0 f); img0 := img0 f;
     hdr1 := hdr1 f; tab1 := tab1 f |}.

Definition set_card `{E : External} (key : string) (c : card) (f : FitsFile)
  : FitsFile :=
  {| hdr0 := <[key := c]> (hdr0 f); img0 := img0 f;
     hdr1 := hdr1 f; tab1 := tab1 f |}.



Definition date_fields : list string :=
  ["DATE_OBS"; "DATE_END"; "STARTOBS"; "ENDOBS"].

(** The date fields that only the metadata block reads; [STARTOBS] is also
    read, without a default, when the frame times are derived. *)
Definition metadata_only_dates : list string :=
  ["DATE_OBS"; "DATE_END"; "ENDOBS"].

Definition required_columns : list string :=
  ["EXPTIMES"; "TIME"; "PZTX"; "PZTY"; "XCENIX"; "YCENIX"; "OBS_VRIX";
   "OPHASEIX"].

(** Two outcomes of the loader that differ at most in the [wcs] object. *)
Definition same_but_wcs `{E : External} (r1 r2 : outcome SJICube) : Prop :=
  match r1, r2 with
  | Ok c1, Ok c2 =>
      cube_data c1 = cube_data c2 ∧
      cube_uncertainty c1 = cube_uncertainty c2 ∧
      cube_unit c1 = cube_unit c2 ∧
      cube_meta c1 = cube_meta c2 ∧
      cube_mask c1 = cube_mask c2 ∧
      cube_extra_coords c1 = cube_extra_coords c2
  | Raise e1, Raise e2 => e1 = e2
  | _, _ => False
  end.

(** The uncertainty of one pixel as the documentation words it: the square
    root of the count in photons plus the squared readout noise in photons,
    expressed in the data unit again. [radicand] is what the root is taken
    of. *)
Definition radicand (tools : IrisTools) (count : Z) : outcome float :=
  match u.to (DN_UNIT_SJI tools) u.photon (float_of_int count),
        u.to (q_unit (READOUT_NOISE_SJI tools)) u.photon
             (q_value (READOUT_NOISE_SJI tools)) with
  | Ok data_in_photons, Ok noise_in_photons =>
      Ok (PrimFloat.add data_in_photons
            (PrimFloat.mul noise_in_photons noise_in_photons))
  | Raise e, _ | _, Raise e => Raise e
  end.

Definition uncertainty_formula (tools : IrisTools) (count : Z) : outcome float :=
  match radicand tools count with
  | Ok r => u.to u.photon (DN_UNIT_SJI tools) (PrimFloat.sqrt r)
  | Raise e => Raise e
  end.

(** The bad-pixel correction of one stored value. *)
Definition corrected (x : Z) : Z :=
  if x =? BAD_PIXEL_VALUE_UNSCALED then BAD_PIXEL_VALUE else x.

(** The range of a 16-bit image ([BITPIX = 16]). *)
Definition int16 (x : Z) : Prop := -32768 <= x <= 32767.

(** [n] consecutive integers from [lo] upwards; all values of a 16-bit
    image. *)
Fixpoint upto (n : nat) (lo : Z) : list Z :=
  match n with
  | O => []
  | S n' => lo :: upto n' (lo + 1)
  end.



(** Result and parser calls of [optional_time], which do not depend on the
    world it runs in. *)
Definition opt_result `{E : External} (h : gmap string card) (key : string)
  : outcome (option datetime) :=
  match h !! key with
  | Some c => if truthy c then
                match parse_outcome c with
                | Ok t => Ok (Some t)
                | Raise e => Raise e
                end
              else Ok None
  | None => Ok None
  end.

Definition opt_calls (h : gmap string card) (key : string) : list card :=
  match h !! key with
  | Some c => if truthy c then [c] else []
  | None => []
  end.

(** What one element of the [times] comprehension is: the parsed
    [STARTOBS] plus the elapsed seconds [s]. *)
Definition stamped `{E : External} (f : FitsFile) (s : cell) (t : datetime)
  : Prop :=
  ∃ c0 t0, hdr0 f !! "STARTOBS" = Some c0 ∧ parse_time c0 = Some t0 ∧
           add_seconds t0 s = Some t.

(** The interpreter state once the image has been read and corrected. *)
Definition corrected_world (img : ndarray Z) : World :=
  {| heap := [amap corrected img]; hdu0_cache := Some 0%nat;
     handle_open := true; parse_calls := [] |}.

(** Everything a successful call of the loader establishes. *)
Inductive Loaded `{E : External} (tools : IrisTools) (f : FitsFile)
  (w : World) (c : SJICube) : Prop :=
| Loaded_intro
    (exposure elapsed pztx pzty xcenix ycenix obs_vrix ophaseix : list cell)
    (times : list datetime) (cs : list card)
    (in_photons unc : ndarray float) (noise : float)
    (date_obs date_end startobs endobs : option datetime)
    (nbframes : nat)
    (Hexposure : column_of f "EXPTIMES" = Ok exposure)
    (Hphotons :
       u.to_array (DN_UNIT_SJI tools) u.photon
         (amap float_of_int (amap corrected (img0 f))) = Ok in_photons)
    (Hnoise :
       u.to (q_unit (READOUT_NOISE_SJI tools)) u.photon
         (q_value (READOUT_NOISE_SJI tools)) = Ok noise)
    (Hunc :
       u.to_array u.photon (DN_UNIT_SJI tools)
         (amap (λ x, PrimFloat.sqrt (PrimFloat.add x (PrimFloat.mul noise noise)))
               in_photons) = Ok unc)
    (Helapsed : column_of f "TIME" = Ok elapsed)
    (Htimes :
       comprehension (frame_time f) elapsed (corrected_world (img0 f))
       = (logged cs (corrected_world (img0 f)), Ok times))
    (Hpztx : column_of f "PZTX" = Ok pztx)
    (Hpzty : column_of f "PZTY" = Ok pzty)
    (Hxcenix : column_of f "XCENIX" = Ok xcenix)
    (Hycenix : column_of f "YCENIX" = Ok ycenix)
    (Hobs_vrix : column_of f "OBS_VRIX" = Ok obs_vrix)
    (Hophaseix : column_of f "OPHASEIX" = Ok ophaseix)
    (Hdate_obs : opt_result (hdr0 f) "DATE_OBS" = Ok date_obs)
    (Hdate_end : opt_result (hdr0 f) "DATE_END" = Ok date_end)
    (Hstartobs : opt_result (hdr0 f) "STARTOBS" = Ok startobs)
    (Hendobs : opt_result (hdr0 f) "ENDOBS" = Ok endobs)
    (Hframes : shape0 (amap corrected (img0 f)) = Ok nbframes)
    (Hworld :
       w = {| heap := [amap corrected (img0 f)]; hdu0_cache := Some 0%nat;
              handle_open := false;
              parse_calls :=
                ((((cs ++ opt_calls (hdr0 f) "DATE_OBS")
                   ++ opt_calls (hdr0 f) "DATE_END")
                  ++ opt_calls (hdr0 f) "STARTOBS")
                 ++ opt_calls (hdr0 f) "ENDOBS") |})
    (Hcube :
       c = {| cube_data := 0%nat;
              cube_wcs := WCS (hdr0 f);
              cube_uncertainty := unc;
              cube_unit := DN_UNIT_SJI tools;
              cube_meta :=
                <["TELESCOP" := MCard (hdr_get (hdr0 f) "TELESCOP" Unknown)]> (
                <["INSTRUME" := MCard (hdr_get (hdr0 f) "INSTRUME" Unknown)]> (
                <["TWAVE1" := MCard (hdr_get (hdr0 f) "TWAVE1" Unknown)]> (
                <["DATE_OBS" := of_optional_time date_obs]> (
                <["DATE_END" := of_optional_time date_end]> (
                <["STARTOBS" := of_optional_time startobs]> (
                <["ENDOBS" := of_optional_time endobs]> (
                <["NBFRAMES" := MInt nbframes]> (
                <["OBSID" := MCard (hdr_get (hdr0 f) "OBSID" Unknown)]> (
                <["OBS_DESC" := MCard (hdr_get (hdr0 f) "OBS_DESC" Unknown)]>
                  ∅)))))))));
              cube_mask := amap (λ _, false) (img0 f);
              cube_extra_coords :=
                [("TIME", 0, Datetimes times);
                 ("PZTX", 0, Quantities pztx u.arcsec);
                 ("PZTY", 0, Quantities pzty u.arcsec);
                 ("XCENIX", 0, Quantities xcenix u.arcsec);
                 ("YCENIX", 0, Quantities ycenix u.arcsec);
                 ("OBS_VRIX", 0, Quantities obs_vrix (u.div u.m u.s));
                 ("OPHASEIX", 0, Bare ophaseix);
                 ("EXPOSURE TIME", 0, Bare exposure)] |}).

(* ================================================================== *)
(** ** A worked instance *)
(* ================================================================== *)

Module Sample.

(** A stand-in for sunpy.time and datetime: instants are microseconds on
    the integer line, table cells are whole seconds, a string of decimal
    digits (or an integer card) is read as seconds and anything else is
    refused. The [wcs] object carries no information. *)
Fixpoint digits (s : string) (acc : Z) : option Z :=
  match s with
  | EmptyString => Some acc
  | String c s' =>
      let n := Z.of_N (Ascii.N_of_ascii c) in
      if (48 <=? n) && (n <=? 57) then digits s' (10 * acc + (n - 48))
      else None
  end.

Definition parse (c : card) : option Z :=
  match c with
  | CStr EmptyString => None
  | CStr s => (λ z, z * 1000000) <$> digits s 0
  | CInt z => Some (z * 1000000)
  | _ => None
  end.

Definition libs : External :=
  {| wcs := unit; WCS := λ _, tt;
     cell := Z; cell_le := Z.le;
     datetime := Z; datetime_le := Z.le;
     parse_time := parse;
     add_seconds := λ t x, Some (t + x * 1000000) |}.

(** Three frames of two by two pixels; pixel [0,0,0] holds the unscaled
    bad-pixel value. One table row per frame. *)
Definition image : ndarray Z :=
  NDArray [3; 2; 2]%nat
    [-32768; 12; 0; 431;
     15; -3; 88; 2047;
     9; 10; 25; 640].

Definition table : ndarray Z :=
  NDArray [3; 8]%nat
    [0;  11; 21; 8; 31; 41; 51; 61;
     5;  12; 22; 8; 32; 42; 52; 62;
     10; 13; 23; 8; 33; 43; 53; 63].

Definition primary_header : gmap string card :=
  list_to_map
    [("TELESCOP", CStr "IRIS"); ("INSTRUME", CStr "SJI");
     ("TWAVE1", CFloat 1400%float); ("DATE_OBS", CStr "1400000000");
     ("DATE_END", CStr "1400000600"); ("STARTOBS", CStr "1400000000");
     ("ENDOBS", CStr "1400000600"); ("OBSID", CStr "3820259253");
     ("OBS_DESC", CStr "Large sit-and-stare")].

Definition table_header : gmap string card :=
  list_to_map
    [("TIME", CInt 0); ("PZTX", CInt 1); ("PZTY", CInt 2);
     ("EXPTIMES", CInt 3); ("XCENIX", CInt 4); ("YCENIX", CInt 5);
     ("OBS_VRIX", CInt 6); ("OPHASEIX", CInt 7)].

Definition level2 : @FitsFile libs :=
  @Build_FitsFile libs primary_header image table_header table.

Definition run (f : @FitsFile libs) : World * outcome (@SJICube libs) :=
  @load libs SJI_constants f.

End Sample.


(* ================================================================== *)
(** ** [SJICube.__repr__] *)
(* ================================================================== *)

(** Evaluating an expression of [__repr__]: besides the loader's
    exceptions it can end in a [TypeError]. *)
Inductive attempt (A : Type) :=
| Got (a : A)
| Failed (e : exn)
| FailedTypeError.
Arguments Got {A} a.
Arguments Failed {A} e.
Arguments FailedTypeError {A}.

Definition attempt_bind {A B} (k : A → attempt B) (x : attempt A) : attempt B :=
  match x with
  | Got a => k a
  | Failed e => Failed e
  | FailedTypeError => FailedTypeError
  end.

#[global] Instance attempt_mbind : MBind attempt := @attempt_bind.

(** What [__repr__] asks of Python's formatting and of NDCube:
    - [TIME_FORMAT]: the module constant read from sunpy's configuration
      when the module is imported;
    - [str_datetime t], [strftime spec t]: [format(t, spec)] of a datetime
      for an empty and for a non-empty [spec];
    - [str_float x]: [str(x)] of a float;
    - [format_card spec c], [format_int spec n]: [format] of a header value
      or of an integer under a non-empty [spec], [None] when the
      specification is refused ([ValueError]);
    - [format_cell spec x un]: the same for an element of a numeric series,
      with its unit if it has one;
    - [str_axis_types], [str_dimensions]: [str] of the container's
      [world_axis_physical_types] and [dimensions]. *)
Class Formatting (E : External) := {
  TIME_FORMAT : string;
  str_datetime : datetime → string;
  strftime : string → datetime → string;
  str_float : float → string;
  format_card : string → card → option string;
  format_int : string → nat → option string;
  format_cell : string → cell → option u.Unit → option string;
  str_axis_types : wcs → string;
  str_dimensions : list nat → string;
}.

Definition tab : string := String (Ascii.ascii_of_nat 9) EmptyString.
Definition newline : string := String (Ascii.ascii_of_nat 10) EmptyString.

Fixpoint tabs (n : nat) : string :=
  match n with
  | O => EmptyString
  | S n' => tab +:+ tabs n'
  end.

(** One line of the report: four blanks, the label, [n] tabs, a blank,
    the value. *)
Definition report_line (label : string) (n : nat) (value : string) : string :=
  "    " +:+ label +:+ tabs n +:+ " " +:+ value +:+ newline.

Definition is_empty (s : string) : bool :=
  match s with EmptyString => true | _ => false end.

Section Repr.
Context {E : External} {F : Formatting E}.

(** An element of an extra coordinate. *)
Inductive element :=
| EDatetime (t : datetime)
| ECell (x : cell) (un : option u.Unit).

Definition elements (v : series) : list element :=
  match v with
  | Datetimes ts => map EDatetime ts
  | Bare xs => map (λ x, ECell x None) xs
  | Quantities xs un => map (λ x, ECell x (Some un)) xs
  end.

(** [str(c)] of a header value. *)
Definition str_card (c : card) : string :=
  match c with
  | CStr s => s
  | CInt z => pretty z
  | CBool true => "True"
  | CBool false => "False"
  | CFloat x => str_float x
  end.

(** [format(v, spec)] of a metadata value: [None] only accepts the empty
    specification. *)
Definition format_value (spec : string) (v : mval) : attempt string :=
  match v with
  | MNone => if is_empty spec then Got "None" else FailedTypeError
  | MTime t =>
      Got (if is_empty spec then str_datetime t else strftime spec t)
  | MCard c =>
      if is_empty spec then Got (str_card c)
      else match format_card spec c with
           | Some s => Got s
           | None => Failed ValueError
           end
  | MInt n =>
      if is_empty spec then Got (pretty n)
      else match format_int spec n with
           | Some s => Got s
           | None => Failed ValueError
           end
  end.

Definition format_element (spec : string) (x : element) : attempt string :=
  match x with
  | EDatetime t =>
      Got (if is_empty spec then str_datetime t else strftime spec t)
  | ECell x un =>
      match format_cell spec x un with
      | Some s => Got s
      | None => Failed ValueError
      end
  end.

(** [self.meta[key]] *)
Definition meta_getitem (c : SJICube) (key : string) : attempt mval :=
  match cube_meta c !! key with
  | Some v => Got v
  | None => Failed (KeyError key)
  end.

(** The entry of [self.extra_coords] named [name]: the property is [None]
    for a container without extra coordinates and a dictionary otherwise, in
    which a later entry of the same name replaces an earlier one. *)
Fixpoint find_coord (name : string) (l : list (string * Z * series))
  : option series :=
  match l with
  | [] => None
  | (n, _, v) :: l' =>
      match find_coord name l' with
      | Some v' => Some v'
      | None => if String.eqb n name then Some v else None
      end
  end.

Definition extra_coord_value (c : SJICube) (name : string) : attempt series :=
  match cube_extra_coords c with
  | [] => FailedTypeError
  | l => match find_coord name l with
         | Some v => Got v
         | None => Failed (KeyError name)
         end
  end.

(** [v[0]] and [v[-1]] *)
Definition first_element (v : series) : attempt element :=
  match head (elements v) with
  | Some x => Got x
  | None => Failed IndexError
  end.

Definition last_element (v : series) : attempt element :=
  match last (elements v) with
  | Some x => Got x
  | None => Failed IndexError
  end.

(** [__repr__]: the keyword arguments are evaluated in the order they are
    written, then the fields are formatted in the order of the template.
    [w] is the interpreter state the container lives in. *)
Definition repr (w : World) (c : SJICube) : attempt string :=
  obs ← meta_getitem c "TELESCOP";
  instrument ← meta_getitem c "INSTRUME";
  bandpass ← meta_getitem c "TWAVE1";
  date_start ← meta_getitem c "DATE_OBS";
  date_end ← meta_getitem c "DATE_END";
  time0 ← extra_coord_value c "TIME";
  instance_start ← first_element time0;
  time1 ← extra_coord_value c "TIME";
  instance_end ← last_element time1;
  frame_num ← meta_getitem c "NBFRAMES";
  obs_id ← meta_getitem c "OBSID";
  obs_desc ← meta_getitem c "OBS_DESC";
  let axis_types := str_axis_types (cube_wcs c) in
  let dimensions :=
    str_dimensions
      (shape (default (NDArray [] []) (heap w !! cube_data c))) in
  let tmf := TIME_FORMAT in
  s_obs ← format_value EmptyString obs;
  s_instrument ← format_value EmptyString instrument;
  s_bandpass ← format_value EmptyString bandpass;
  s_date_start ← format_value tmf date_start;
  s_date_end ← format_value tmf date_end;
  s_instance_start ← format_element tmf instance_start;
  s_instance_end ← format_element tmf instance_end;
  s_frame_num ← format_value EmptyString frame_num;
  s_obs_id ← format_value EmptyString obs_id;
  s_obs_desc ← format_value EmptyString obs_desc;
  Got (newline
       +:+ "    SJICube" +:+ newline
       +:+ "    ---------" +:+ newline
       +:+ report_line "Observatory:" 2 s_obs
       +:+ report_line "Instrument:" 3 s_instrument
       +:+ report_line "Bandpass:" 3 s_bandpass
       +:+ report_line "Obs. Start:" 3 s_date_start
       +:+ report_line "Obs. End:" 3 s_date_end
       +:+ report_line "Instance Start:" 2 s_instance_start
       +:+ report_line "Instance End:" 2 s_instance_end
       +:+ report_line "Total Frames in Obs.:" 1 s_frame_num
       +:+ report_line "IRIS Obs. id:" 2 s_obs_id
       +:+ report_line "IRIS Obs. Description:" 1 s_obs_desc
       +:+ report_line "Cube dimensions:" 2 dimensions
       +:+ report_line "Axis Types:" 3 axis_types
       +:+ "    ").

End Repr.

(* ================================================================== *)
(** ** More files and instances to evaluate on *)
(* ================================================================== *)

(** The same file with another stored image, and with another card in the
    header of the table. *)
Definition with_image `{E : External} (img : ndarray Z) (f : FitsFile)
  : FitsFile :=
  {| hdr0 := hdr0 f; img0 := img; hdr1 := hdr1 f; tab1 := tab1 f |}.

Definition set_table_card `{E : External} (key : string) (c : card)
  (f : FitsFile) : FitsFile :=
  {| hdr0 := hdr0 f; img0 := img0 f;
     hdr1 := <[key := c]> (hdr1 f); tab1 := tab1 f |}.


(** The metadata keys [__repr__] looks up. *)
Definition report_keys : list string :=
  ["TELESCOP"; "INSTRUME"; "TWAVE1"; "DATE_OBS"; "DATE_END"; "NBFRAMES";
   "OBSID"; "OBS_DESC"].

(** An uncertainty between the one of an empty pixel and [top]. *)
Definition floor_verdict (tools : IrisTools) (top : float) (count : Z) : bool :=
  match uncertainty_formula tools 0, uncertainty_formula tools count with
  | Ok floor, Ok v => PrimFloat.leb floor v && PrimFloat.leb v top
  | _, _ => false
  end.


Module SampleReport.

(** A stand-in for Python's formatting: an instant is shown as its number
    of microseconds, whatever the (non-empty) time format; no other value
    accepts a non-empty format specification. *)
Definition fmt : Formatting Sample.libs :=
  @Build_Formatting Sample.libs
    "%Y-%m-%d %H:%M:%S"
    (λ t : Z, pretty t)
    (λ _ (t : Z), pretty t)
    (λ _, "1400.0")
    (λ _ _, None)
    (λ _ _, None)
    (λ spec (x : Z) _, if is_empty spec then Some (pretty x) else None)
    (λ _, "('time', 'lat', 'lon')")
    (λ sh, pretty (length sh)).

(** A file with the image of [Sample.level2] but -200 stored at pixel
    [0,0,0]; one without frames and table rows; and the table of
    [Sample.level2] without rows. *)
Definition stored_minus_200 : ndarray Z :=
  NDArray [3; 2; 2]%nat
    [-200; 12; 0; 431;
     15; -3; 88; 2047;
     9; 10; 25; 640].

Definition no_rows : @FitsFile Sample.libs :=
  @Build_FitsFile Sample.libs Sample.primary_header
    (NDArray [0; 2; 2]%nat []) Sample.table_header (NDArray [0; 8]%nat []).

Definition render (f : @FitsFile Sample.libs) : attempt string :=
  match Sample.run f with
  | (w, Ok c) => @repr Sample.libs fmt w c
  | (_, Raise e) => Failed e
  end.

End SampleReport.

(* ================================================================== *)
(** * Properties *)
(* ================================================================== *)

(** ** Arrays *)

Lemma put_where_corrected (xs : list Z) :
  put_where (map (λ x, x =? BAD_PIXEL_VALUE_UNSCALED) xs) BAD_PIXEL_VALUE xs
  = map corrected xs.
Proof.
  induction xs as [|x xs IH]; simpl; [reflexivity|].
  rewrite IH. reflexivity.
Qed.

Lemma corrected_not_sentinel (x : Z) :
  (corrected x =? BAD_PIXEL_VALUE_UNSCALED) = false.
Proof.
  unfold corrected. destruct (x =? BAD_PIXEL_VALUE_UNSCALED) eqn:Hx.
  - reflexivity.
  - exact Hx.
Qed.

Lemma setitem_where_sentinel (a : ndarray Z) :
  setitem_where a (eq_scalar a BAD_PIXEL_VALUE_UNSCALED) BAD_PIXEL_VALUE
  = Ok (amap corrected a).
Proof.
  unfold setitem_where, eq_scalar, amap. simpl.
  rewrite decide_True by reflexivity.
  rewrite put_where_corrected. reflexivity.
Qed.

Lemma eq_scalar_corrected (a : ndarray Z) :
  eq_scalar (amap corrected a) BAD_PIXEL_VALUE_UNSCALED = amap (λ _, false) a.
Proof.
  unfold eq_scalar, amap. simpl. f_equal.
  rewrite map_map. apply map_ext. intros x. apply corrected_not_sentinel.
Qed.

Lemma amap_lookup {A B} (g : A → B) (a : ndarray A) (i : nat) :
  buf (amap g a) !! i = g <$> buf a !! i.
Proof. unfold amap. simpl. apply list_lookup_fmap. Qed.

Lemma to_array_Ok (src dst : u.Unit) (a a' : ndarray float) :
  u.to_array src dst a = Ok a' →
  shape a' = shape a ∧
  ∀ i x, buf a !! i = Some x →
         ∃ y, buf a' !! i = Some y ∧ u.to src dst x = Ok y.
Proof.
  unfold u.to_array, u.to.
  destruct (u.photons src) as [p|]; [|discriminate].
  destruct (u.photons dst) as [q|]; [|discriminate].
  intros [= <-]. split; [reflexivity|].
  intros i x Hx. eexists. split; [|reflexivity].
  rewrite amap_lookup, Hx. reflexivity.
Qed.

Lemma column_length {A} (a : ndarray A) (c : Z) (xs : list A) :
  column a c = Ok xs → ∃ nc, shape a = [length xs; nc].
Proof.
  unfold column.
  destruct (shape a) as [|nr [|nc [|? ?]]]; try discriminate.
  destruct (norm_index nc c) as [j|]; [|discriminate].
  destruct (mapM _ _) as [ys|] eqn:Hys; [|discriminate].
  intros [= <-]. apply length_mapM in Hys.
  rewrite length_seq in Hys. exists nc. congruence.
Qed.

Lemma in_upto (n : nat) (lo x : Z) :
  lo <= x < lo + Z.of_nat n → In x (upto n lo).
Proof.
  revert lo. induction n as [|n IH]; intros lo Hx; simpl.
  - lia.
  - destruct (Z.eq_dec lo x) as [->|Hne]; [left; reflexivity|].
    right. apply IH. lia.
Qed.


(** ** The interpreter monad *)

Lemma logged_nil (w : World) : logged [] w = w.
Proof. destruct w. unfold logged. simpl. rewrite app_nil_r. reflexivity. Qed.

Lemma logged_logged (cs ds : list card) (w : World) :
  logged ds (logged cs w) = logged (cs ++ ds) w.
Proof. unfold logged. simpl. rewrite app_assoc. reflexivity. Qed.

Lemma bind_unfold {A B} (c : py A) (k : A → py B) (w : World) :
  bind c k w = match c w with
               | (w', Ok a) => k a w'
               | (w', Raise e) => (w', Raise e)
               end.
Proof. reflexivity. Qed.

Lemma bind_lift {A B} (r : outcome A) (k : A → py B) (w : World) :
  bind (lift r) k w = match r with
                      | Ok a => k a w
                      | Raise e => (w, Raise e)
                      end.
Proof. unfold bind, lift. destruct r; reflexivity. Qed.

Lemma bind_deref {B} (r : nat) (a : ndarray Z) (k : ndarray Z → py B) (w : World) :
  heap w !! r = Some a → bind (deref r) k w = k a w.
Proof. intros H. unfold bind, deref. rewrite H. reflexivity. Qed.

Lemma bind_hdu0_cached {B} (img : ndarray Z) (r : nat) (k : nat → py B) (w : World) :
  hdu0_cache w = Some r → bind (hdu0_data img) k w = k r w.
Proof. intros H. unfold bind, hdu0_data. rewrite H. reflexivity. Qed.

Lemma bind_close {B} (k : unit → py B) (w : World) :
  bind fits_close k w
  = k tt {| heap := heap w; hdu0_cache := hdu0_cache w; handle_open := false;
            parse_calls := parse_calls w |}.
Proof. reflexivity. Qed.

(** The first statements of the loader: both names are bound to the one
    array object, the sentinel is overwritten in it, and only then is the
    mask computed, from the overwritten array. *)
Lemma loader_prefix {B} (img : ndarray Z)
  (k : nat → nat → ndarray bool → py B) :
  (fits_open ;;
   data <- hdu0_data img ;;
   data_nan_masked <- hdu0_data img ;;
   bad <- np_eq data BAD_PIXEL_VALUE_UNSCALED ;;
   np_setitem data_nan_masked bad BAD_PIXEL_VALUE ;;
   mask <- np_eq data_nan_masked BAD_PIXEL_VALUE_UNSCALED ;;
   k data data_nan_masked mask)%py init_world
  = k 0%nat 0%nat (amap (λ _, false) img) (corrected_world img).
Proof.
  unfold bind, fits_open, hdu0_data, np_eq, np_setitem, bind, deref, assign,
    lift, ret, init_world. simpl.
  rewrite setitem_where_sentinel. simpl.
  rewrite eq_scalar_corrected. reflexivity.
Qed.

Section Run.
Context {E : External} (tools : IrisTools).

Lemma bind_optional_time {B} (h : gmap string card) (key : string)
  (k : option datetime → py B) (w : World) :
  bind (optional_time h key) k w
  = match opt_result h key with
    | Ok a => k a (logged (opt_calls h key) w)
    | Raise e => (logged (opt_calls h key) w, Raise e)
    end.
Proof.
  unfold bind, optional_time, opt_result, opt_calls.
  destruct (h !! key) as [c|]; [destruct (truthy c)|].
  - unfold bind, call_parse_time, ret. destruct (parse_outcome c); reflexivity.
  - unfold ret. rewrite logged_nil. reflexivity.
  - unfold ret. rewrite logged_nil. reflexivity.
Qed.

Lemma frame_time_run (f : FitsFile) (s : cell) (w : World) :
  ∃ cs, fst (frame_time f s w) = logged cs w.
Proof.
  unfold frame_time, hdr_getitem, plus_seconds. rewrite bind_lift.
  destruct (getitem (hdr0 f) "STARTOBS") as [c|e].
  - exists [c]. unfold bind, call_parse_time, lift.
    destruct (parse_outcome c); reflexivity.
  - exists []. rewrite logged_nil. reflexivity.
Qed.

Lemma comprehension_frame_time (f : FitsFile) (xs : list cell) (w : World) :
  ∃ cs, fst (comprehension (frame_time f) xs w) = logged cs w.
Proof.
  revert w. induction xs as [|x xs IH]; intros w; simpl.
  - exists []. rewrite logged_nil. reflexivity.
  - rewrite bind_unfold.
    destruct (frame_time_run f x w) as [cs Hcs].
    destruct (frame_time f x w) as [w1 [t|e]]; simpl in Hcs; subst w1.
    + rewrite bind_unfold.
      destruct (IH (logged cs w)) as [ds Hds].
      destruct (comprehension (frame_time f) xs (logged cs w)) as [w2 [ts|e]];
        simpl in Hds; subst w2; exists (cs ++ ds);
        rewrite logged_logged; reflexivity.
    + exists cs. reflexivity.
Qed.

Local Ltac raised := intros [= <- <-]; right; eexists; split; reflexivity.

Lemma load_cases (f : FitsFile) (w : World) (r : outcome SJICube) :
  load tools f = (w, r) →
  (∃ c, r = Ok c ∧ Loaded tools f w c) ∨
  (∃ e, r = Raise e ∧ handle_open w = true).
Proof.
  unfold load, read_iris_sji_level2_fits.
  rewrite loader_prefix. cbv beta zeta. unfold table_column.
  rewrite bind_lift.
  destruct (column_of f "EXPTIMES") as [exposure|?] eqn:Hexposure;
    [| raised].
  erewrite bind_deref by reflexivity.
  rewrite bind_lift.
  destruct (u.to_array (DN_UNIT_SJI tools) u.photon _) as [in_photons|?]
    eqn:Hphotons; [| raised].
  rewrite bind_lift.
  destruct (u.to (q_unit (READOUT_NOISE_SJI tools)) u.photon _) as [noise|?]
    eqn:Hnoise; [| raised].
  rewrite bind_lift.
  destruct (u.to_array u.photon (DN_UNIT_SJI tools) _) as [unc|?]
    eqn:Hunc; [| raised].
  rewrite bind_lift.
  destruct (column_of f "TIME") as [elapsed|?] eqn:Helapsed;
    [| raised].
  rewrite bind_unfold.
  destruct (comprehension_frame_time f elapsed (corrected_world (img0 f)))
    as [cs Hcs].
  destruct (comprehension (frame_time f) elapsed (corrected_world (img0 f)))
    as [w2 [times|?]] eqn:Htimes; simpl in Hcs; subst w2;
    [| raised].
  rewrite bind_lift.
  destruct (column_of f "PZTX") as [pztx|?] eqn:Hpztx;
    [| raised].
  rewrite bind_lift.
  destruct (column_of f "PZTY") as [pzty|?] eqn:Hpzty;
    [| raised].
  rewrite bind_lift.
  destruct (column_of f "XCENIX") as [xcenix|?] eqn:Hxcenix;
    [| raised].
  rewrite bind_lift.
  destruct (column_of f "YCENIX") as [ycenix|?] eqn:Hycenix;
    [| raised].
  rewrite bind_lift.
  destruct (column_of f "OBS_VRIX") as [obs_vrix|?] eqn:Hobs_vrix;
    [| raised].
  rewrite bind_lift.
  destruct (column_of f "OPHASEIX") as [ophaseix|?] eqn:Hophaseix;
    [| raised].
  cbv zeta.
  rewrite bind_optional_time.
  destruct (opt_result (hdr0 f) "DATE_OBS") as [date_obs|?] eqn:Hdate_obs;
    [| raised].
  rewrite bind_optional_time.
  destruct (opt_result (hdr0 f) "DATE_END") as [date_end|?] eqn:Hdate_end;
    [| raised].
  rewrite bind_optional_time.
  destruct (opt_result (hdr0 f) "STARTOBS") as [startobs|?] eqn:Hstartobs;
    [| raised].
  rewrite bind_optional_time.
  destruct (opt_result (hdr0 f) "ENDOBS") as [endobs|?] eqn:Hendobs;
    [| raised].
  erewrite bind_hdu0_cached by reflexivity.
  erewrite bind_deref by reflexivity.
  rewrite bind_lift.
  destruct (shape0 (amap corrected (img0 f))) as [nbframes|?] eqn:Hframes;
    [| raised].
  cbv zeta. rewrite bind_close. unfold ret.
  intros [= <- <-]. left. eexists. split; [reflexivity|].
  econstructor; try eassumption; reflexivity.
Qed.

Lemma load_Ok_inv (f : FitsFile) (w : World) (c : SJICube) :
  load tools f = (w, Ok c) → Loaded tools f w c.
Proof.
  intros H. destruct (load_cases f w (Ok c) H) as [(c' & [= <-] & HL)|(e & [=] & _)].
  exact HL.
Qed.

Lemma Loaded_load (f : FitsFile) (w : World) (c : SJICube) :
  Loaded tools f w c → load tools f = (w, Ok c).
Proof.
  intros []. subst w c.
  unfold load, read_iris_sji_level2_fits.
  rewrite loader_prefix. cbv beta zeta. unfold table_column.
  rewrite bind_lift, Hexposure. erewrite bind_deref by reflexivity.
  rewrite bind_lift, Hphotons, bind_lift, Hnoise, bind_lift, Hunc.
  rewrite bind_lift, Helapsed, bind_unfold, Htimes.
  rewrite bind_lift, Hpztx, bind_lift, Hpzty, bind_lift, Hxcenix.
  rewrite bind_lift, Hycenix, bind_lift, Hobs_vrix, bind_lift, Hophaseix.
  cbv zeta.
  rewrite bind_optional_time, Hdate_obs, bind_optional_time, Hdate_end.
  rewrite bind_optional_time, Hstartobs, bind_optional_time, Hendobs.
  erewrite bind_hdu0_cached by reflexivity.
  erewrite bind_deref by reflexivity. rewrite bind_lift, Hframes.
  reflexivity.
Qed.
End Run.

(** ** What a successful call returns *)

Section Success.
Context {E : External} (tools : IrisTools).

Lemma loaded_data (f : FitsFile) (w : World) (c : SJICube) :
  load tools f = (w, Ok c) →
  heap w !! cube_data c = Some (amap corrected (img0 f)).
Proof.
  intros H. destruct (load_Ok_inv tools f w c H). subst w c. reflexivity.
Qed.

Lemma loaded_uncertainty (f : FitsFile) (w : World) (c : SJICube) :
  load tools f = (w, Ok c) →
  shape (cube_uncertainty c) = shape (img0 f) ∧
  ∀ i x, buf (img0 f) !! i = Some x →
         ∃ v, buf (cube_uncertainty c) !! i = Some v ∧
              uncertainty_formula tools (corrected x) = Ok v.
Proof.
  intros H. destruct (load_Ok_inv tools f w c H). subst w c. simpl.
  destruct (to_array_Ok _ _ _ _ Hphotons) as [Hs1 Hp].
  destruct (to_array_Ok _ _ _ _ Hunc) as [Hs2 Hu].
  split; [rewrite Hs2; simpl; rewrite Hs1; reflexivity|].
  intros i x Hx.
  destruct (Hp i (float_of_int (corrected x))) as (p & Hpi & Hpx).
  { rewrite !amap_lookup, Hx. reflexivity. }
  destruct (Hu i (PrimFloat.sqrt (PrimFloat.add p (PrimFloat.mul noise noise))))
    as (v & Hvi & Hvx).
  { rewrite amap_lookup, Hpi. reflexivity. }
  exists v. split; [exact Hvi|].
  unfold uncertainty_formula, radicand. rewrite Hpx, Hnoise. exact Hvx.
Qed.

End Success.

(** ** The claims about a successful call *)


Section Claims.
Context {E : External} (tools : IrisTools).

(** C1, as the code behaves: for every file that loads, the mask has the
    shape of the image and is [False] at every pixel, whatever the pixel
    held; a pixel that held the unscaled bad-pixel value -32768 is not
    flagged. *)
Theorem mask_is_all_false (f : FitsFile) (w : World) (c : SJICube) :
  load tools f = (w, Ok c) →
  shape (cube_mask c) = shape (img0 f) ∧
  ∀ i x, buf (img0 f) !! i = Some x → buf (cube_mask c) !! i = Some false.
Proof.
  intros H. destruct (load_Ok_inv tools f w c H). subst w c. simpl.
  split; [reflexivity|].
  intros i x Hx. rewrite list_lookup_fmap, Hx. reflexivity.
Qed.

(** C2: for every file that loads, the returned data array has the shape
    of the stored image; a pixel that held -32768 holds -200, and every
    other pixel holds what it held. *)
Theorem data_is_corrected (f : FitsFile) (w : World) (c : SJICube) :
  load tools f = (w, Ok c) →
  ∃ d, heap w !! cube_data c = Some d ∧
       shape d = shape (img0 f) ∧
       length (buf d) = length (buf (img0 f)) ∧
       ∀ i x, buf (img0 f) !! i = Some x →
              (x = -32768 → buf d !! i = Some (-200)) ∧
              (x ≠ -32768 → buf d !! i = Some x).
Proof.
  intros H. exists (amap corrected (img0 f)).
  split; [exact (loaded_data tools f w c H)|].
  split; [reflexivity|].
  split; [simpl; apply length_map|].
  intros i x Hx. rewrite amap_lookup, Hx. simpl. unfold corrected.
  split.
  - intros ->. reflexivity.
  - intros Hne. apply Z.eqb_neq in Hne.
    unfold BAD_PIXEL_VALUE_UNSCALED. rewrite Hne. reflexivity.
Qed.

(** C3: for every file that loads, the uncertainty of each pixel is the
    square root of (the corrected count in photons plus the squared
    readout noise in photons), expressed in the data unit; the corrected
    count is the entry of the returned data array. *)
Theorem uncertainty_follows_formula (f : FitsFile) (w : World) (c : SJICube) :
  load tools f = (w, Ok c) →
  ∃ d, heap w !! cube_data c = Some d ∧
       ∀ i x, buf d !! i = Some x →
              ∃ v, buf (cube_uncertainty c) !! i = Some v ∧
                   uncertainty_formula tools x = Ok v.
Proof.
  intros H. exists (amap corrected (img0 f)).
  split; [exact (loaded_data tools f w c H)|].
  intros i x Hx. rewrite amap_lookup in Hx.
  destruct (buf (img0 f) !! i) as [x0|] eqn:Hx0; [|discriminate].
  injection Hx as <-.
  exact (proj2 (loaded_uncertainty tools f w c H) i x0 Hx0).
Qed.

End Claims.


(** ** Frame count, auxiliary series and frame times *)

Section Series.
Context {E : External} (tools : IrisTools).

Lemma column_of_rows (f : FitsFile) (key : string) (xs : list cell) :
  column_of f key = Ok xs → shape0 (tab1 f) = Ok (length xs).
Proof.
  unfold column_of. destruct (getitem (hdr1 f) key) as [[]|]; try discriminate.
  intros H. destruct (column_length _ _ _ H) as [nc Hnc].
  unfold shape0. rewrite Hnc. reflexivity.
Qed.

Lemma comprehension_length {A B} (body : A → py B) (xs : list A)
  (w w' : World) (ys : list B) :
  comprehension body xs w = (w', Ok ys) → length ys = length xs.
Proof.
  revert w w' ys. induction xs as [|x xs IH]; intros w w' ys; simpl.
  - intros [= _ <-]. reflexivity.
  - rewrite bind_unfold. destruct (body x w) as [w1 [y|e]]; [|discriminate].
    rewrite bind_unfold.
    destruct (comprehension body xs w1) as [w2 [zs|e]] eqn:Hzs; [|discriminate].
    intros [= _ <-]. simpl. f_equal. exact (IH _ _ _ Hzs).
Qed.

Lemma frame_time_Ok (f : FitsFile) (s : cell) (w w' : World) (t : datetime) :
  frame_time f s w = (w', Ok t) → stamped f s t.
Proof.
  unfold frame_time, hdr_getitem, plus_seconds, getitem. rewrite bind_lift.
  destruct (hdr0 f !! "STARTOBS") as [c0|] eqn:Hc0; [|discriminate].
  rewrite bind_unfold. unfold call_parse_time, parse_outcome.
  destruct (parse_time c0) as [t0|] eqn:Ht0; [|discriminate].
  unfold lift. destruct (add_seconds t0 s) as [t1|] eqn:Ht1; [|discriminate].
  intros [= _ <-]. exists c0, t0. auto.
Qed.

Lemma comprehension_stamped (f : FitsFile) (xs : list cell) (w w' : World)
  (ts : list datetime) :
  comprehension (frame_time f) xs w = (w', Ok ts) → Forall2 (stamped f) xs ts.
Proof.
  revert w w' ts. induction xs as [|x xs IH]; intros w w' ts; simpl.
  - intros [= _ <-]. constructor.
  - rewrite bind_unfold.
    destruct (frame_time f x w) as [w1 [t|e]] eqn:Ht; [|discriminate].
    rewrite bind_unfold.
    destruct (comprehension (frame_time f) xs w1) as [w2 [zs|e]] eqn:Hzs;
      [|discriminate].
    intros [= _ <-]. constructor.
    + exact (frame_time_Ok _ _ _ _ _ Ht).
    + exact (IH _ _ _ Hzs).
Qed.

Lemma stamped_sorted `{!MonotoneClock E} (f : FitsFile) (xs : list cell)
  (ts : list datetime) :
  Forall2 (stamped f) xs ts → Sorted cell_le xs → Sorted datetime_le ts.
Proof.
  induction 1 as [|x t xs ts Hxt Hrest IH]; intros Hs.
  - constructor.
  - apply Sorted_inv in Hs as [Hs Hhd]. constructor; [exact (IH Hs)|].
    destruct Hrest as [|x' t' xs' ts' Hxt' _]; constructor.
    apply HdRel_inv in Hhd.
    destruct Hxt as (c0 & t0 & Hc0 & Ht0 & Hadd).
    destruct Hxt' as (c0' & t0' & Hc0' & Ht0' & Hadd').
    rewrite Hc0 in Hc0'. injection Hc0' as <-.
    rewrite Ht0 in Ht0'. injection Ht0' as <-.
    exact (add_seconds_mono t0 x x' t t' Hhd Hadd Hadd').
Qed.

(** C7: for every file that loads, [NBFRAMES] is the leading dimension of
    the data array, and when the auxiliary table has that many rows every
    extra-coordinate series (times, the six columns, exposure times) has
    that length. *)
Theorem frame_count_and_series_lengths (f : FitsFile) (w : World) (c : SJICube) :
  load tools f = (w, Ok c) →
  ∃ n d, heap w !! cube_data c = Some d ∧ shape0 d = Ok n ∧
         cube_meta c !! "NBFRAMES" = Some (MInt n) ∧
         (shape0 (tab1 f) = Ok n →
          Forall (λ e, series_length e.2 = n) (cube_extra_coords c)).
Proof.
  intros H. destruct (load_Ok_inv tools f w c H). subst w c.
  exists nbframes, (amap corrected (img0 f)).
  split; [reflexivity|]. split; [exact Hframes|].
  split; [simpl; repeat (rewrite lookup_insert_ne by done);
          apply lookup_insert_eq|].
  intros Hrows. simpl.
  apply comprehension_length in Htimes.
  repeat match goal with
         | Hc : column_of f _ = Ok _ |- _ =>
             apply column_of_rows in Hc; rewrite Hrows in Hc;
             injection Hc as Hc
         end.
  repeat constructor; simpl; congruence.
Qed.

(** C8: for every file that loads, the time of frame [i] is the parsed
    [STARTOBS] plus the [i]-th entry of the elapsed-seconds column; with a
    [timedelta] that keeps the order, a non-decreasing column gives
    non-decreasing frame times. *)
Theorem frame_times_follow_elapsed_seconds `{!MonotoneClock E}
  (f : FitsFile) (w : World) (c : SJICube) :
  load tools f = (w, Ok c) →
  ∃ elapsed times,
    column_of f "TIME" = Ok elapsed ∧
    head (cube_extra_coords c) = Some ("TIME", 0, Datetimes times) ∧
    Forall2 (stamped f) elapsed times ∧
    (Sorted cell_le elapsed → Sorted datetime_le times).
Proof.
  intros H. destruct (load_Ok_inv tools f w c H). subst w c.
  exists elapsed, times.
  split; [exact Helapsed|]. split; [reflexivity|].
  pose proof (comprehension_stamped _ _ _ _ _ Htimes) as Hst.
  split; [exact Hst|]. exact (stamped_sorted f _ _ Hst).
Qed.

(** C9, amended: for every file that loads, the container receives eight
    extra coordinates, all on axis 0: the frame times, then [PZTX], [PZTY],
    [XCENIX] and [YCENIX] in arcsec (angles), [OBS_VRIX] in m/s (a
    velocity), and [OPHASEIX] and the exposure times as bare arrays without
    a unit; each of the seven arrays is the table column its header key
    points to. *)
Theorem extra_coords_layout (f : FitsFile) (w : World) (c : SJICube) :
  load tools f = (w, Ok c) →
  ∃ times pztx pzty xcenix ycenix obs_vrix ophaseix exposure,
    column_of f "PZTX" = Ok pztx ∧ column_of f "PZTY" = Ok pzty ∧
    column_of f "XCENIX" = Ok xcenix ∧ column_of f "YCENIX" = Ok ycenix ∧
    column_of f "OBS_VRIX" = Ok obs_vrix ∧
    column_of f "OPHASEIX" = Ok ophaseix ∧
    column_of f "EXPTIMES" = Ok exposure ∧
    cube_extra_coords c =
      [("TIME", 0, Datetimes times);
       ("PZTX", 0, Quantities pztx u.arcsec);
       ("PZTY", 0, Quantities pzty u.arcsec);
       ("XCENIX", 0, Quantities xcenix u.arcsec);
       ("YCENIX", 0, Quantities ycenix u.arcsec);
       ("OBS_VRIX", 0, Quantities obs_vrix (u.div u.m u.s));
       ("OPHASEIX", 0, Bare ophaseix);
       ("EXPOSURE TIME", 0, Bare exposure)] ∧
    u.physical_type u.arcsec = u.angle ∧
    u.physical_type (u.div u.m u.s) = u.velocity.
Proof.
  intros H. destruct (load_Ok_inv tools f w c H). subst w c.
  exists times, pztx, pzty, xcenix, ycenix, obs_vrix, ophaseix, exposure.
  repeat (split; [assumption || reflexivity|]). reflexivity.
Qed.

End Series.

(** ** Header fields that are absent or empty *)

Section Headers.
Context {E : External} (tools : IrisTools).

Lemma opt_result_delete_eq (h : gmap string card) (key : string) :
  opt_result (delete key h) key = Ok None.
Proof. unfold opt_result. rewrite lookup_delete_eq. reflexivity. Qed.

Lemma opt_result_delete_ne (h : gmap string card) (k key : string) :
  k ≠ key → opt_result (delete k h) key = opt_result h key.
Proof. intros Hne. unfold opt_result. rewrite lookup_delete_ne by done. reflexivity. Qed.

Lemma opt_result_insert_empty (h : gmap string card) (key : string) :
  opt_result (<[key := CStr EmptyString]> h) key = Ok None.
Proof. unfold opt_result. rewrite lookup_insert_eq. reflexivity. Qed.

Lemma frame_time_drop_card (k : string) (f : FitsFile) :
  k ≠ "STARTOBS" → frame_time (drop_card k f) = frame_time f.
Proof.
  intros Hne. unfold frame_time, hdr_getitem, getitem, drop_card. simpl.
  rewrite lookup_delete_ne by done. reflexivity.
Qed.





End Headers.

(** ** The file handle *)

Section Handle.
Context {E : External} (tools : IrisTools).







End Handle.

(** ** Empty date fields *)

Section EmptyDates.
Context {E : External} (tools : IrisTools).

Lemma optional_time_insert_empty (h : gmap string card) (key : string) :
  optional_time (<[key := CStr EmptyString]> h) key = ret None.
Proof. unfold optional_time. rewrite lookup_insert_eq. reflexivity. Qed.

Lemma optional_time_delete_eq (h : gmap string card) (key : string) :
  optional_time (delete key h) key = ret None.
Proof. unfold optional_time. rewrite lookup_delete_eq. reflexivity. Qed.

Lemma optional_time_insert_ne (h : gmap string card) (k key : string) (c : card) :
  k ≠ key → optional_time (<[k := c]> h) key = optional_time h key.
Proof. intros Hne. unfold optional_time. rewrite lookup_insert_ne by done. reflexivity. Qed.

Lemma optional_time_delete_ne (h : gmap string card) (k key : string) :
  k ≠ key → optional_time (delete k h) key = optional_time h key.
Proof. intros Hne. unfold optional_time. rewrite lookup_delete_ne by done. reflexivity. Qed.

Lemma hdr_get_insert_ne (h : gmap string card) (k key : string) (c d : card) :
  k ≠ key → hdr_get (<[k := c]> h) key d = hdr_get h key d.
Proof. intros Hne. unfold hdr_get. rewrite lookup_insert_ne by done. reflexivity. Qed.

Lemma hdr_get_delete_ne (h : gmap string card) (k key : string) (d : card) :
  k ≠ key → hdr_get (delete k h) key d = hdr_get h key d.
Proof. intros Hne. unfold hdr_get. rewrite lookup_delete_ne by done. reflexivity. Qed.

Lemma frame_time_set_card (k : string) (c : card) (f : FitsFile) :
  k ≠ "STARTOBS" → frame_time (set_card k c f) = frame_time f.
Proof.
  intros Hne. unfold frame_time, hdr_getitem, getitem, set_card. simpl.
  rewrite lookup_insert_ne by done. reflexivity.
Qed.

(** Two programs that run the same statement first agree when their
    continuations do. *)
Lemma bind_same_but_wcs {A} (c : py A) (k1 k2 : A → py SJICube) (w : World) :
  (∀ a w', (k1 a w').1 = (k2 a w').1 ∧
           same_but_wcs (k1 a w').2 (k2 a w').2) →
  (bind c k1 w).1 = (bind c k2 w).1 ∧
  same_but_wcs (bind c k1 w).2 (bind c k2 w).2.
Proof.
  intros Hk. unfold bind. destruct (c w) as [w' [a|e]].
  - apply Hk.
  - simpl. auto.
Qed.

Lemma empty_like_absent (f : FitsFile) (k : string) :
  In k metadata_only_dates →
  (load tools (set_card k (CStr EmptyString) f)).1
  = (load tools (drop_card k f)).1 ∧
  same_but_wcs (load tools (set_card k (CStr EmptyString) f)).2
               (load tools (drop_card k f)).2.
Proof.
  intros Hk. unfold load, read_iris_sji_level2_fits.
  cbv beta zeta.
  change (table_column (set_card k (CStr EmptyString) f))
    with (table_column f).
  change (table_column (drop_card k f)) with (table_column f).
  change (img0 (set_card k (CStr EmptyString) f)) with (img0 f).
  change (img0 (drop_card k f)) with (img0 f).
  change (hdr0 (set_card k (CStr EmptyString) f))
    with (<[k := CStr EmptyString]> (hdr0 f)).
  change (hdr0 (drop_card k f)) with (delete k (hdr0 f)).
  simpl in Hk.
  repeat (destruct Hk as [<-|Hk];
    [ rewrite frame_time_set_card, frame_time_drop_card by done;
      rewrite optional_time_insert_empty, optional_time_delete_eq;
      rewrite !optional_time_insert_ne, !optional_time_delete_ne by done;
      rewrite !hdr_get_insert_ne, !hdr_get_delete_ne by done;
      repeat (apply bind_same_but_wcs; intros ? ?; cbv beta);
      unfold ret; simpl; repeat split; reflexivity |]).
  destruct Hk.
Qed.

(** C10, amended: an empty DATE_OBS, DATE_END or ENDOBS is treated
    exactly as an absent one: the two calls end in the same interpreter
    state (the same calls into the time parser, so the empty string is not
    passed to it) and with the same outcome, up to the wcs object built
    from the header. For each of the four date fields, STARTOBS included,
    an empty value leaves the metadata entry unset whenever the call
    succeeds. *)
Theorem empty_date_is_unset (f : FitsFile) (k : string) :
  In k metadata_only_dates →
  ((load tools (set_card k (CStr EmptyString) f)).1
   = (load tools (drop_card k f)).1 ∧
   same_but_wcs (load tools (set_card k (CStr EmptyString) f)).2
                (load tools (drop_card k f)).2) ∧
  ∀ key w c, In key date_fields →
             load tools (set_card key (CStr EmptyString) f) = (w, Ok c) →
             cube_meta c !! key = Some MNone.
Proof.
  intros Hk. split; [exact (empty_like_absent f k Hk)|].
  intros key w c Hkey H.
  destruct (load_Ok_inv tools _ w c H). subst w c.
  simpl hdr0 in *. simpl in Hkey.
  repeat (destruct Hkey as [<-|Hkey];
    [ rewrite opt_result_insert_empty in *;
      repeat match goal with
             | Hd : Ok None = Ok _ |- _ => injection Hd as <-
             end;
      simpl; repeat (rewrite lookup_insert_ne by done);
      apply lookup_insert_eq |]).
  destruct Hkey.
Qed.

End EmptyDates.

(* ================================================================== *)
(** * The worked instance *)
(* ================================================================== *)

Lemma sample_clock_monotone : MonotoneClock Sample.libs.
Proof.
  intros t x y tx ty Hxy [= <-] [= <-].
  change (x <= y) in Hxy. change (t + x * 1000000 <= t + y * 1000000). lia.
Qed.

(** Runs the loader on a sample file that loads. *)
Ltac run_sample f w c H :=
  destruct (Sample.run f) as [w [c|?]] eqn:H;
  [| exfalso; apply (f_equal (λ p, succeeded p.2)) in H;
     vm_compute in H; discriminate H];
  unfold Sample.run in H.

Lemma mask_is_all_false_witness :
  ∃ w c, Sample.run Sample.level2 = (w, Ok c) ∧
         buf (img0 Sample.level2) !! 0%nat = Some (-32768) ∧
         buf (cube_mask c) !! 0%nat = Some false.
Proof.
  run_sample Sample.level2 w c Hrun. exists w, c.
  split; [reflexivity|]. split; [reflexivity|].
  exact (proj2 (mask_is_all_false SJI_constants Sample.level2 w c Hrun)
           0%nat (-32768) eq_refl).
Defined.

Lemma data_is_corrected_witness :
  ∃ w c d, Sample.run Sample.level2 = (w, Ok c) ∧
           heap w !! cube_data c = Some d ∧
           buf d !! 0%nat = Some (-200) ∧ buf d !! 1%nat = Some 12.
Proof.
  run_sample Sample.level2 w c Hrun.
  destruct (data_is_corrected SJI_constants Sample.level2 w c Hrun)
    as (d & Hd & _ & _ & Hpix).
  exists w, c, d. split; [reflexivity|]. split; [exact Hd|]. split.
  - exact (proj1 (Hpix 0%nat (-32768) eq_refl) eq_refl).
  - apply (proj2 (Hpix 1%nat 12 eq_refl)). discriminate.
Defined.

Lemma uncertainty_follows_formula_witness :
  ∃ w c d, Sample.run Sample.level2 = (w, Ok c) ∧
           heap w !! cube_data c = Some d ∧
           ∀ i x, buf d !! i = Some x →
                  ∃ v, buf (cube_uncertainty c) !! i = Some v ∧
                       uncertainty_formula SJI_constants x = Ok v.
Proof.
  run_sample Sample.level2 w c Hrun.
  destruct (uncertainty_follows_formula SJI_constants Sample.level2 w c Hrun)
    as (d & Hd & Hpix).
  exists w, c, d. split; [reflexivity|]. split; [exact Hd | exact Hpix].
Defined.




Lemma frame_count_and_series_lengths_witness :
  shape0 (tab1 Sample.level2) = Ok 3%nat ∧
  ∃ w c, Sample.run Sample.level2 = (w, Ok c) ∧
         cube_meta c !! "NBFRAMES" = Some (MInt 3) ∧
         Forall (λ e, series_length e.2 = 3%nat) (cube_extra_coords c).
Proof.
  split; [reflexivity|].
  run_sample Sample.level2 w c Hrun. exists w, c. split; [reflexivity|].
  destruct (frame_count_and_series_lengths SJI_constants Sample.level2 w c Hrun)
    as (n & d & Hd & Hn & Hmeta & Hlen).
  rewrite (loaded_data SJI_constants Sample.level2 w c Hrun) in Hd.
  injection Hd as <-. injection Hn as <-.
  split; [exact Hmeta|]. apply Hlen. reflexivity.
Defined.

Lemma frame_times_follow_elapsed_seconds_witness :
  ∃ w c times,
    Sample.run Sample.level2 = (w, Ok c) ∧
    head (cube_extra_coords c) = Some ("TIME", 0, Datetimes times) ∧
    Forall2 (stamped Sample.level2) [0; 5; 10] times ∧
    Sorted Z.le times.
Proof.
  run_sample Sample.level2 w c Hrun.
  destruct (@frame_times_follow_elapsed_seconds Sample.libs SJI_constants
              sample_clock_monotone Sample.level2 w c Hrun)
    as (elapsed & times & Hcol & Hhead & Hst & Hsorted).
  injection Hcol as <-.
  exists w, c, times. split; [reflexivity|]. split; [exact Hhead|].
  split; [exact Hst|]. apply Hsorted.
  repeat constructor; unfold cell_le; simpl; lia.
Defined.

Lemma extra_coords_layout_witness :
  ∃ w c, Sample.run Sample.level2 = (w, Ok c) ∧
         length (cube_extra_coords c) = 8%nat ∧
         map (λ e, series_unit e.2) (cube_extra_coords c)
         = [None; Some u.arcsec; Some u.arcsec; Some u.arcsec; Some u.arcsec;
            Some (u.div u.m u.s); None; None].
Proof.
  run_sample Sample.level2 w c Hrun. exists w, c. split; [reflexivity|].
  destruct (extra_coords_layout SJI_constants Sample.level2 w c Hrun)
    as (? & ? & ? & ? & ? & ? & ? & ? & _ & _ & _ & _ & _ & _ & _ & -> & _).
  split; reflexivity.
Defined.

Lemma empty_date_is_unset_witness :
  In "DATE_OBS" metadata_only_dates ∧
  (Sample.run (set_card "DATE_OBS" (CStr EmptyString) Sample.level2)).1
  = (Sample.run (drop_card "DATE_OBS" Sample.level2)).1.
Proof.
  assert (Hk : In "DATE_OBS" metadata_only_dates) by (simpl; auto).
  split; [exact Hk|].
  exact (proj1 (proj1 (empty_date_is_unset SJI_constants Sample.level2
                         "DATE_OBS" Hk))).
Defined.

(** The sample file evaluated: pixel [0,0,0] holds -32768, and the mask
    the loader returns is [False] there. *)
Lemma sentinel_pixel_is_not_flagged :
  ∃ w c, Sample.run Sample.level2 = (w, Ok c) ∧
         item (img0 Sample.level2) [0; 0; 0]%nat = Some (-32768) ∧
         item (cube_mask c) [0; 0; 0]%nat = Some false.
Proof.
  run_sample Sample.level2 w c Hrun. exists w, c.
  split; [reflexivity|]. split; [reflexivity|].
  assert (Hobs : match (Sample.run Sample.level2).2 with
                 | Ok c => item (cube_mask c) [0; 0; 0]%nat
                 | Raise _ => None
                 end = Some false) by (vm_compute; reflexivity).
  unfold Sample.run in Hobs. rewrite Hrun in Hobs. exact Hobs.
Qed.




(** C9 as stated fails: the container of the sample file receives eight
    extra coordinates, not seven. *)
Lemma eight_extra_coords :
  ∃ w c, Sample.run Sample.level2 = (w, Ok c) ∧
         length (cube_extra_coords c) = 8%nat ∧
         length (cube_extra_coords c) ≠ 7%nat.
Proof.
  run_sample Sample.level2 w c Hrun. exists w, c. split; [reflexivity|].
  assert (Hobs : match (Sample.run Sample.level2).2 with
                 | Ok c => length (cube_extra_coords c)
                 | Raise _ => 0%nat
                 end = 8%nat) by (vm_compute; reflexivity).
  unfold Sample.run in Hobs. rewrite Hrun in Hobs.
  change (length (cube_extra_coords c) = 8%nat) in Hobs.
  split; [exact Hobs|]. rewrite Hobs. discriminate.
Qed.

(** C10 as stated fails: an empty STARTOBS is passed to the time parser
    (which refuses it), while an absent STARTOBS is a [KeyError]. *)
Lemma empty_STARTOBS_is_parsed :
  parse_calls
    (Sample.run (set_card "STARTOBS" (CStr EmptyString) Sample.level2)).1
  = [CStr EmptyString] ∧
  (Sample.run (set_card "STARTOBS" (CStr EmptyString) Sample.level2)).2
  = Raise ValueError ∧
  (Sample.run (drop_card "STARTOBS" Sample.level2)).2
  = Raise (KeyError "STARTOBS").
Proof. repeat split; vm_compute; reflexivity. Qed.

(* ================================================================== *)
(** * Further properties of the loader *)
(* ================================================================== *)

Section Aliasing.
Context {E : External} (tools : IrisTools).

Lemma corrected_idempotent (x : Z) : corrected (corrected x) = corrected x.
Proof.
  unfold corrected at 1. rewrite corrected_not_sentinel. reflexivity.
Qed.

Lemma corrected_in_int16 (x : Z) : int16 x → int16 (corrected x).
Proof.
  unfold int16, corrected, BAD_PIXEL_VALUE, BAD_PIXEL_VALUE_UNSCALED.
  destruct (x =? -32768); lia.
Qed.


(** X2: the returned data never holds the unscaled bad-pixel value, and a
    16-bit image stays within 16 bits (the value written, -200, fits). *)
Theorem returned_data_has_no_sentinel (f : FitsFile) (w : World) (c : SJICube) :
  load tools f = (w, Ok c) →
  ∃ d, heap w !! cube_data c = Some d ∧
       (∀ i x, buf d !! i = Some x → x ≠ -32768) ∧
       (Forall int16 (buf (img0 f)) → Forall int16 (buf d)).
Proof.
  intros H. exists (amap corrected (img0 f)).
  split; [exact (loaded_data tools f w c H)|]. split.
  - intros i x Hx. rewrite amap_lookup in Hx.
    destruct (buf (img0 f) !! i) as [x0|]; [|discriminate].
    injection Hx as <-. intros Heq.
    pose proof (corrected_not_sentinel x0) as Hne.
    apply Z.eqb_neq in Hne. exact (Hne Heq).
  - intros H16. simpl. apply Forall_forall. intros x Hx.
    apply list_elem_of_fmap in Hx as (x0 & -> & Hx0).
    apply corrected_in_int16. rewrite Forall_forall in H16. exact (H16 x0 Hx0).
Qed.

Lemma amap_const_of_corrected (img img' : ndarray Z) :
  amap corrected img = amap corrected img' →
  amap (λ _, false) img = amap (λ _, false) img'.
Proof.
  unfold amap. intros [= Hs Hb]. f_equal; [exact Hs|].
  apply (f_equal (map (λ _ : Z, false))) in Hb.
  rewrite !map_map in Hb. exact Hb.
Qed.

(** X3: the loader only sees the image through the bad-pixel correction:
    two files that differ in the stored image alone, and whose images agree
    once -32768 is replaced by -200, load to the same container in the same
    state. A pixel that was stored as -200 cannot be told from a bad
    pixel. *)
Theorem stored_minus_200_is_indistinguishable (f : FitsFile) (img : ndarray Z)
  (w : World) (c : SJICube) :
  amap corrected img = amap corrected (img0 f) →
  load tools f = (w, Ok c) →
  load tools (with_image img f) = (w, Ok c).
Proof.
  intros Himg H. destruct (load_Ok_inv tools f w c H). subst w c.
  apply Loaded_load.
  pose proof (amap_const_of_corrected _ _ Himg) as Hmask.
  econstructor; simpl img0; unfold corrected_world;
    rewrite ?Himg, ?Hmask; try eassumption; reflexivity.
Qed.

End Aliasing.

Section ParserCalls.
Context {E : External} (tools : IrisTools).

Lemma frame_time_calls (f : FitsFile) (s : cell) (w w' : World) (t : datetime) :
  frame_time f s w = (w', Ok t) →
  ∃ c0, hdr0 f !! "STARTOBS" = Some c0 ∧
        parse_calls w' = parse_calls w ++ [c0].
Proof.
  unfold frame_time, hdr_getitem, plus_seconds, getitem. rewrite bind_lift.
  destruct (hdr0 f !! "STARTOBS") as [c0|]; [|discriminate].
  rewrite bind_unfold. unfold call_parse_time.
  destruct (parse_outcome c0) as [t0|]; [|discriminate].
  unfold lift. destruct (add_seconds t0 s); [|discriminate].
  intros [= <- _]. exists c0. split; reflexivity.
Qed.

Lemma comprehension_calls (f : FitsFile) (xs : list cell) (w w' : World)
  (ts : list datetime) :
  comprehension (frame_time f) xs w = (w', Ok ts) →
  parse_calls w'
  = parse_calls w
    ++ replicate (length xs) (default (CStr EmptyString) (hdr0 f !! "STARTOBS")).
Proof.
  revert w w' ts. induction xs as [|x xs IH]; intros w w' ts; simpl.
  - intros [= <- _]. rewrite app_nil_r. reflexivity.
  - rewrite bind_unfold.
    destruct (frame_time f x w) as [w1 [t|e]] eqn:Ht; [|discriminate].
    rewrite bind_unfold.
    destruct (comprehension (frame_time f) xs w1) as [w2 [zs|e]] eqn:Hzs;
      [|discriminate].
    intros [= <- _].
    destruct (frame_time_calls _ _ _ _ _ Ht) as (c0 & Hc0 & Hw1).
    rewrite (IH _ _ _ Hzs), Hw1, Hc0. simpl.
    rewrite <- app_assoc. reflexivity.
Qed.

(** X4: on a successful call the time parser is called once per table row
    with the STARTOBS card (the comprehension parses it again for every
    frame), and after that once for each of DATE_OBS, DATE_END, STARTOBS
    and ENDOBS that is present and not empty, in this order. *)
Theorem STARTOBS_is_parsed_once_per_row (f : FitsFile) (w : World) (c : SJICube) :
  load tools f = (w, Ok c) →
  ∃ rows, shape0 (tab1 f) = Ok rows ∧
          parse_calls w
          = replicate rows (default (CStr EmptyString) (hdr0 f !! "STARTOBS"))
            ++ opt_calls (hdr0 f) "DATE_OBS" ++ opt_calls (hdr0 f) "DATE_END"
            ++ opt_calls (hdr0 f) "STARTOBS" ++ opt_calls (hdr0 f) "ENDOBS".
Proof.
  intros H. destruct (load_Ok_inv tools f w c H). subst w c.
  exists (length elapsed). split; [exact (column_of_rows f "TIME" _ Helapsed)|].
  apply comprehension_calls in Htimes. simpl in Htimes. subst cs. simpl.
  rewrite <- !app_assoc. reflexivity.
Qed.

(** X5: a table without rows needs no STARTOBS: the comprehension has no
    element to evaluate, so a file that loads with an empty table still
    loads when its STARTOBS card is taken away, with the metadata entry
    unset and no time at all handed to the parser for it. *)
Theorem empty_table_needs_no_STARTOBS (f : FitsFile) (w : World) (c : SJICube) :
  shape0 (tab1 f) = Ok 0%nat →
  load tools f = (w, Ok c) →
  ∃ w' c', load tools (drop_card "STARTOBS" f) = (w', Ok c') ∧
           cube_meta c' !! "STARTOBS" = Some MNone ∧
           cube_extra_coords c' = cube_extra_coords c.
Proof.
  intros Hrows H. destruct (load_Ok_inv tools f w c H). subst w c.
  pose proof (column_of_rows f "TIME" _ Helapsed) as Hlen.
  rewrite Hrows in Hlen. injection Hlen as Hlen.
  destruct elapsed; [|discriminate]. simpl in Htimes.
  unfold ret in Htimes. injection Htimes as _ <-.
  eexists _, _. split; [|split].
  - apply Loaded_load.
    eapply (Loaded_intro tools (drop_card "STARTOBS" f) _ _
              exposure [] pztx pzty xcenix ycenix obs_vrix ophaseix [] []);
      try eassumption.
    + simpl. unfold ret. rewrite logged_nil. reflexivity.
    + simpl hdr0. rewrite opt_result_delete_ne by done. eassumption.
    + simpl hdr0. rewrite opt_result_delete_ne by done. eassumption.
    + simpl hdr0. apply opt_result_delete_eq.
    + simpl hdr0. rewrite opt_result_delete_ne by done. eassumption.
    + reflexivity.
    + reflexivity.
  - simpl. repeat (rewrite lookup_insert_ne by done). apply lookup_insert_eq.
  - reflexivity.
Qed.

End ParserCalls.

Section Failures.
Context {E : External} (tools : IrisTools).









End Failures.

Section FailureOrigins.
Context {E : External} (tools : IrisTools).







End FailureOrigins.

Section TableHeader.
Context {E : External} (tools : IrisTools).

Lemma column_of_set_ne (k key : string) (c : card) (f : FitsFile) :
  k ≠ key → column_of (set_table_card k c f) key = column_of f key.
Proof.
  intros Hne. unfold column_of, getitem, set_table_card. simpl.
  rewrite lookup_insert_ne by done. reflexivity.
Qed.

Lemma column_of_set_eq (k : string) (c : card) (f : FitsFile) :
  column_of (set_table_card k c f) k
  = match c with CInt z => column (tab1 f) z | _ => Raise IndexError end.
Proof.
  unfold column_of, getitem, set_table_card. simpl.
  rewrite lookup_insert_eq. reflexivity.
Qed.

Lemma column_out_of_range {A} (a : ndarray A) (nr nc : nat) (z : Z) :
  shape a = [nr; nc] → z < - Z.of_nat nc ∨ Z.of_nat nc <= z →
  column a z = Raise IndexError.
Proof.
  intros Hs Hz. unfold column, norm_index. rewrite Hs.
  destruct (0 <=? z) eqn:H0; destruct (z <? Z.of_nat nc) eqn:H1;
    destruct (- Z.of_nat nc <=? z) eqn:H2; destruct (z <? 0) eqn:H3;
    simpl; try reflexivity; lia.
Qed.

Local Ltac run_to_raise Htimes :=
  repeat (first [ rewrite bind_lift
                | erewrite bind_deref by reflexivity
                | rewrite bind_unfold, Htimes ];
          try match goal with
              | H : ?l = Ok _ |- context [match ?l with _ => _ end] =>
                  rewrite H
              end;
          cbv beta iota).

(** X8: a column key that points outside the table. When a file loads,
    the same file with one required column key set to an integer outside
    [-ncols, ncols) fails with [IndexError], a lookup failure, and the
    file handle is left open. *)
Theorem column_index_out_of_range (f : FitsFile) (w : World) (c : SJICube)
  (k : string) (z : Z) (nr nc : nat) :
  In k required_columns →
  shape (tab1 f) = [nr; nc] →
  z < - Z.of_nat nc ∨ Z.of_nat nc <= z →
  load tools f = (w, Ok c) →
  ∃ w', load tools (set_table_card k (CInt z) f) = (w', Raise IndexError) ∧
        is_lookup_error IndexError = true ∧ handle_open w' = true.
Proof.
  intros Hk Hs Hz H. destruct (load_Ok_inv tools f w c H). subst w c.
  pose proof (column_out_of_range (tab1 f) nr nc z Hs Hz) as Hcol.
  unfold load, read_iris_sji_level2_fits.
  rewrite loader_prefix. cbv beta zeta. unfold table_column.
  change (frame_time (set_table_card k (CInt z) f)) with (frame_time f).
  change (img0 (set_table_card k (CInt z) f)) with (img0 f).
  simpl in Hk.
  repeat (destruct Hk as [<-|Hk];
          [ rewrite column_of_set_eq, Hcol, ?column_of_set_ne by done;
            run_to_raise Htimes;
            eexists; repeat split; reflexivity |]).
  destruct Hk.
Qed.

Lemma column_of_set_other (k key : string) (c : card) (f : FitsFile) :
  ¬ In k required_columns → In key required_columns →
  column_of (set_table_card k c f) key = column_of f key.
Proof.
  intros Hk Hkey. apply column_of_set_ne. intros ->. exact (Hk Hkey).
Qed.

(** X9: the loader reads the header of the table only at its eight column
    keys: setting any other card there changes neither the outcome nor the
    final state of the call. *)
Theorem other_table_cards_are_ignored (f : FitsFile) (k : string) (c : card) :
  ¬ In k required_columns →
  load tools (set_table_card k c f) = load tools f.
Proof.
  intros Hk. unfold load, read_iris_sji_level2_fits, table_column.
  change (frame_time (set_table_card k c f)) with (frame_time f).
  change (img0 (set_table_card k c f)) with (img0 f).
  change (hdr0 (set_table_card k c f)) with (hdr0 f).
  rewrite !(column_of_set_other k _ c f Hk) by (simpl; auto 10).
  reflexivity.
Qed.

End TableHeader.

Section PrimaryHeader.
Context {E : External} (tools : IrisTools).



End PrimaryHeader.

Lemma SJI_floor_verdict :
  forallb (floor_verdict SJI_constants 43%float) (upto (Z.to_nat 32768) 0)
  = true.
Proof. vm_compute. reflexivity. Qed.

(** X11: the readout noise is a floor. With the slit-jaw constants and a
    16-bit image, the uncertainty of a pixel with a non-negative count is
    never below the uncertainty of an empty pixel (count 0, the readout
    noise of about 1.2 DN) and never above 43 DN. *)
Theorem uncertainty_between_floor_and_43 `{E : External}
  (f : FitsFile) (w : World) (c : SJICube) :
  Forall int16 (buf (img0 f)) →
  load SJI_constants f = (w, Ok c) →
  ∃ d floor, heap w !! cube_data c = Some d ∧
             uncertainty_formula SJI_constants 0 = Ok floor ∧
             ∀ i x, buf d !! i = Some x → 0 <= x →
                    ∃ v, buf (cube_uncertainty c) !! i = Some v ∧
                         PrimFloat.leb floor v = true ∧
                         PrimFloat.leb v 43%float = true.
Proof.
  intros H16 H.
  destruct (uncertainty_formula SJI_constants 0) as [floor|] eqn:Hfloor;
    [|vm_compute in Hfloor; discriminate].
  exists (amap corrected (img0 f)), floor.
  split; [exact (loaded_data _ f w c H)|]. split; [reflexivity|].
  destruct (loaded_uncertainty _ f w c H) as [_ Hpix].
  intros i x Hx Hpos. rewrite amap_lookup in Hx.
  destruct (buf (img0 f) !! i) as [x0|] eqn:Hx0; [|discriminate].
  injection Hx as <-.
  destruct (Hpix i x0 Hx0) as (v & Hv & Hformula).
  exists v. split; [exact Hv|].
  assert (Hin : In (corrected x0) (upto (Z.to_nat 32768) 0)).
  { apply in_upto. rewrite Forall_lookup in H16.
    pose proof (corrected_in_int16 _ (H16 i x0 Hx0)) as Hr.
    unfold int16 in Hr. rewrite Z2Nat.id by lia. lia. }
  pose proof (proj1 (forallb_forall _ _) SJI_floor_verdict _ Hin) as Hverdict.
  unfold floor_verdict in Hverdict. rewrite Hfloor, Hformula in Hverdict.
  apply andb_true_iff in Hverdict. exact Hverdict.
Qed.

(* ================================================================== *)
(** * Properties of [SJICube.__repr__] *)
(* ================================================================== *)

Section Report.
Context {E : External} {F : Formatting E} (tools : IrisTools).

Local Ltac meta_lookups :=
  repeat first [ rewrite lookup_insert_eq | rewrite lookup_insert_ne by done ].

Lemma last_elements_datetimes (t : datetime) (ts : list datetime) :
  ∃ x, last (elements (Datetimes (t :: ts))) = Some (EDatetime x).
Proof.
  simpl. revert t. induction ts as [|t' ts IH]; intros t.
  - exists t. reflexivity.
  - destruct (IH t') as [x Hx]. exists x. exact Hx.
Qed.

Lemma repr_loaded (f : FitsFile) (w : World) (c : SJICube) :
  load tools f = (w, Ok c) →
  is_empty TIME_FORMAT = false →
  ∃ date_obs date_end (times : list datetime),
    opt_result (hdr0 f) "DATE_OBS" = Ok date_obs ∧
    opt_result (hdr0 f) "DATE_END" = Ok date_end ∧
    cube_meta c !! "DATE_OBS" = Some (of_optional_time date_obs) ∧
    cube_meta c !! "DATE_END" = Some (of_optional_time date_end) ∧
    shape0 (tab1 f) = Ok (length times) ∧
    (times = [] → repr w c = Failed IndexError) ∧
    (times ≠ [] → date_obs = None ∨ date_end = None →
     repr w c = FailedTypeError) ∧
    (times ≠ [] → is_Some date_obs → is_Some date_end →
     ∃ s, repr w c = Got s).
Proof.
  intros H Htmf. destruct (load_Ok_inv tools f w c H). subst w c.
  exists date_obs, date_end, times.
  split; [exact Hdate_obs|]. split; [exact Hdate_end|].
  split; [cbn [cube_meta]; meta_lookups; reflexivity|].
  split; [cbn [cube_meta]; meta_lookups; reflexivity|].
  split.
  { rewrite (comprehension_length _ _ _ _ _ Htimes).
    exact (column_of_rows f "TIME" _ Helapsed). }
  unfold repr, meta_getitem, extra_coord_value.
  cbn [cube_meta cube_extra_coords cube_wcs cube_data].
  meta_lookups.
  cbn [mbind attempt_mbind attempt_bind find_coord String.eqb Ascii.eqb
       Bool.eqb].
  split; [|split].
  - intros ->. reflexivity.
  - intros Hne Hunset. destruct times as [|t ts]; [contradiction|].
    destruct (last_elements_datetimes t ts) as [x Hx].
    unfold last_element. rewrite Hx.
    cbn [mbind attempt_mbind attempt_bind format_value format_element
         is_empty first_element elements head map].
    destruct date_obs as [t1|]; cbn [of_optional_time format_value];
      rewrite ?Htmf; cbn [mbind attempt_mbind attempt_bind]; [|reflexivity].
    destruct date_end as [t2|]; cbn [of_optional_time format_value];
      rewrite ?Htmf; cbn [mbind attempt_mbind attempt_bind]; [|reflexivity].
    destruct Hunset; discriminate.
  - intros Hne [t1 ->] [t2 ->]. destruct times as [|t ts]; [contradiction|].
    destruct (last_elements_datetimes t ts) as [x Hx].
    unfold last_element. rewrite Hx.
    cbn [mbind attempt_mbind attempt_bind format_value format_element
         is_empty first_element elements head map of_optional_time].
    rewrite ?Htmf. cbn [mbind attempt_mbind attempt_bind].
    eexists. reflexivity.
Qed.


(** X13: a file without DATE_OBS or without DATE_END (or with an empty
    one) loads, but its container cannot be printed: with table rows and a
    non-empty time format, [__repr__] raises [TypeError], because the unset
    date is formatted with the time format. *)
Theorem unset_date_cannot_be_printed (f : FitsFile) (w : World) (c : SJICube)
  (k : string) (rows : nat) :
  In k ["DATE_OBS"; "DATE_END"] →
  (∀ c0, hdr0 f !! k = Some c0 → truthy c0 = false) →
  shape0 (tab1 f) = Ok (S rows) →
  is_empty TIME_FORMAT = false →
  load tools f = (w, Ok c) →
  repr w c = FailedTypeError.
Proof.
  intros Hk Hfalsy Hrows Htmf H.
  destruct (repr_loaded f w c H Htmf)
    as (date_obs & date_end & times & Hdo & Hde & _ & _ & Hlen
        & _ & Hunset & _).
  rewrite Hrows in Hlen. injection Hlen as Hlen.
  assert (Hne : times ≠ []) by (intros ->; discriminate).
  apply (Hunset Hne).
  assert (Hnone : opt_result (hdr0 f) k = Ok None).
  { unfold opt_result. destruct (hdr0 f !! k) as [c0|] eqn:Hc0; [|reflexivity].
    rewrite (Hfalsy c0 eq_refl). reflexivity. }
  simpl in Hk. destruct Hk as [<-|[<-|[]]].
  - left. rewrite Hdo in Hnone. injection Hnone as ->. reflexivity.
  - right. rewrite Hde in Hnone. injection Hnone as ->. reflexivity.
Qed.

(** X14: what the report needs, for any container. When [__repr__]
    returns a text, each of the eight metadata keys it reads is present
    (nothing is defaulted at this layer), there is an extra coordinate named
    TIME, and that coordinate has at least one element. *)
Theorem report_needs_its_inputs (w : World) (c : SJICube) (s : string) :
  repr w c = Got s →
  (∀ k, In k report_keys → is_Some (cube_meta c !! k)) ∧
  ∃ v, find_coord "TIME" (cube_extra_coords c) = Some v ∧ elements v ≠ [].
Proof.
  unfold repr, meta_getitem, extra_coord_value.
  destruct (cube_meta c !! "TELESCOP") eqn:H1; [|discriminate].
  destruct (cube_meta c !! "INSTRUME") eqn:H2; [|discriminate].
  destruct (cube_meta c !! "TWAVE1") eqn:H3; [|discriminate].
  destruct (cube_meta c !! "DATE_OBS") eqn:H4; [|discriminate].
  destruct (cube_meta c !! "DATE_END") eqn:H5; [|discriminate].
  cbn [mbind attempt_mbind attempt_bind].
  destruct (cube_extra_coords c) as [|e l] eqn:Hl; [discriminate|].
  destruct (find_coord "TIME" (e :: l)) as [v|] eqn:Hv; [|discriminate].
  cbn [mbind attempt_mbind attempt_bind]. unfold first_element.
  destruct (head (elements v)) eqn:Hhead; [|discriminate].
  cbn [mbind attempt_mbind attempt_bind].
  destruct (last_element v); [|discriminate..].
  cbn [mbind attempt_mbind attempt_bind].
  destruct (cube_meta c !! "NBFRAMES") eqn:H6; [|discriminate].
  destruct (cube_meta c !! "OBSID") eqn:H7; [|discriminate].
  destruct (cube_meta c !! "OBS_DESC") eqn:H8; [|discriminate].
  intros _. split.
  - intros k Hk. simpl in Hk.
    repeat (destruct Hk as [<-|Hk]; [eexists; eassumption|]). destruct Hk.
  - exists v. split; [reflexivity|]. intros Hnil. rewrite Hnil in Hhead.
    discriminate.
Qed.

End Report.

(* ================================================================== *)
(** * The further properties on the worked instance *)
(* ================================================================== *)



Lemma returned_data_has_no_sentinel_witness :
  Forall int16 (buf (img0 Sample.level2)) ∧
  ∃ w c d, Sample.run Sample.level2 = (w, Ok c) ∧
           heap w !! cube_data c = Some d ∧
           (∀ i x, buf d !! i = Some x → x ≠ -32768) ∧
           Forall int16 (buf d).
Proof.
  assert (H16 : Forall int16 (buf (img0 Sample.level2))).
  { repeat constructor; unfold int16; lia. }
  split; [exact H16|].
  run_sample Sample.level2 w c Hrun.
  destruct (returned_data_has_no_sentinel SJI_constants Sample.level2 w c Hrun)
    as (d & Hd & Hne & Hrange).
  exists w, c, d. split; [reflexivity|]. auto.
Defined.

Lemma stored_minus_200_is_indistinguishable_witness :
  SampleReport.stored_minus_200 ≠ img0 Sample.level2 ∧
  ∃ w c, Sample.run Sample.level2 = (w, Ok c) ∧
         Sample.run (with_image SampleReport.stored_minus_200 Sample.level2)
         = (w, Ok c).
Proof.
  split; [discriminate|].
  run_sample Sample.level2 w c Hrun. exists w, c. split; [reflexivity|].
  exact (stored_minus_200_is_indistinguishable SJI_constants Sample.level2
           SampleReport.stored_minus_200 w c eq_refl Hrun).
Defined.

Lemma STARTOBS_is_parsed_once_per_row_witness :
  ∃ w c, Sample.run Sample.level2 = (w, Ok c) ∧
         parse_calls w
         = [CStr "1400000000"; CStr "1400000000"; CStr "1400000000";
            CStr "1400000000"; CStr "1400000600"; CStr "1400000000";
            CStr "1400000600"].
Proof.
  run_sample Sample.level2 w c Hrun. exists w, c. split; [reflexivity|].
  destruct (STARTOBS_is_parsed_once_per_row SJI_constants Sample.level2 w c Hrun)
    as (rows & Hrows & Hcalls).
  injection Hrows as <-. exact Hcalls.
Defined.

Lemma empty_table_needs_no_STARTOBS_witness :
  shape0 (tab1 SampleReport.no_rows) = Ok 0%nat ∧
  ∃ w' c', Sample.run (drop_card "STARTOBS" SampleReport.no_rows) = (w', Ok c') ∧
           cube_meta c' !! "STARTOBS" = Some MNone.
Proof.
  split; [reflexivity|].
  run_sample SampleReport.no_rows w c Hrun.
  destruct (empty_table_needs_no_STARTOBS SJI_constants SampleReport.no_rows
              w c eq_refl Hrun) as (w' & c' & Hload & Hmeta & _).
  exists w', c'. split; [exact Hload | exact Hmeta].
Defined.



Lemma column_index_out_of_range_witness :
  ∃ w', Sample.run (set_table_card "PZTX" (CInt 8) Sample.level2)
        = (w', Raise IndexError) ∧ handle_open w' = true.
Proof.
  run_sample Sample.level2 w c Hrun.
  assert (Hk : In "PZTX" required_columns) by (simpl; auto).
  destruct (column_index_out_of_range SJI_constants Sample.level2 w c
              "PZTX" 8 3 8 Hk eq_refl (or_intror (Z.le_refl 8)) Hrun)
    as (w' & Hload & _ & Hopen).
  exists w'. split; [exact Hload | exact Hopen].
Defined.

Lemma other_table_cards_are_ignored_witness :
  Sample.run (set_table_card "NAXIS1" (CInt 8) Sample.level2)
  = Sample.run Sample.level2.
Proof.
  apply (other_table_cards_are_ignored SJI_constants Sample.level2
           "NAXIS1" (CInt 8)).
  simpl. intros H. repeat (destruct H as [H|H]; [discriminate H|]). exact H.
Defined.


Lemma uncertainty_between_floor_and_43_witness :
  Forall int16 (buf (img0 Sample.level2)) ∧
  ∃ w c v, Sample.run Sample.level2 = (w, Ok c) ∧
           buf (cube_uncertainty c) !! 3%nat = Some v ∧
           PrimFloat.leb v 43%float = true.
Proof.
  assert (H16 : Forall int16 (buf (img0 Sample.level2))).
  { repeat constructor; unfold int16; lia. }
  split; [exact H16|].
  run_sample Sample.level2 w c Hrun.
  destruct (@uncertainty_between_floor_and_43 Sample.libs Sample.level2 w c
              H16 Hrun) as (d & floor & Hd & _ & Hpix).
  rewrite (loaded_data SJI_constants Sample.level2 w c Hrun) in Hd.
  injection Hd as <-.
  destruct (Hpix 3%nat 431 eq_refl ltac:(lia)) as (v & Hv & _ & Htop).
  exists w, c, v. split; [reflexivity|]. split; [exact Hv | exact Htop].
Defined.


Lemma unset_date_cannot_be_printed_witness :
  ∃ w c, Sample.run (drop_card "DATE_OBS" Sample.level2) = (w, Ok c) ∧
         @repr Sample.libs SampleReport.fmt w c = FailedTypeError.
Proof.
  run_sample (drop_card "DATE_OBS" Sample.level2) w c Hrun. exists w, c.
  split; [reflexivity|].
  apply (@unset_date_cannot_be_printed Sample.libs SampleReport.fmt
           SJI_constants (drop_card "DATE_OBS" Sample.level2) w c
           "DATE_OBS" 2).
  - simpl. auto.
  - intros c0 Hc0. vm_compute in Hc0. discriminate Hc0.
  - reflexivity.
  - reflexivity.
  - exact Hrun.
Defined.

Lemma report_needs_its_inputs_witness :
  ∃ w c s, Sample.run Sample.level2 = (w, Ok c) ∧
           @repr Sample.libs SampleReport.fmt w c = Got s ∧
           ∀ k, In k report_keys → is_Some (cube_meta c !! k).
Proof.
  run_sample Sample.level2 w c Hrun.
  assert (Hr : SampleReport.render Sample.level2
               = @repr Sample.libs SampleReport.fmt w c).
  { unfold SampleReport.render, Sample.run. rewrite Hrun. reflexivity. }
  destruct (@repr Sample.libs SampleReport.fmt w c) as [s|e|] eqn:Hs.
  - exists w, c, s. split; [reflexivity|]. split; [exact Hs|].
    exact (proj1 (@report_needs_its_inputs Sample.libs SampleReport.fmt
                    w c s Hs)).
  - exfalso. vm_compute in Hr. discriminate Hr.
  - exfalso. vm_compute in Hr. discriminate Hr.
Defined.
